(** * CloudWatchCashBack: the cost calculators and the aggregation engine

    A shallow embedding of [cloudwatch_logs_cost_estimator.py]:
    [load_pricing_data], [calculate_old_cloudwatch_cost],
    [calculate_new_cloudwatch_cost] and [analyze_costs], then [get_region],
    [get_lambda_log_usage_for_month] and [format_cost_report].

    Numbers.  The program computes on Python numbers (the volumes are
    floats, the constants are ints).  They are embedded as exact rationals
    [Q]: every statement below is about the arithmetic the program writes
    down, not about binary64 rounding.  Equality of amounts is therefore
    [Qeq] ([==]), the equality of rationals.  Where a result is the very
    expression the code evaluates, the statement says so with [=]; the
    statements about costs do not rest on rearranging that expression
    (cancelling [/ 30] against [* 30], distributing a rate over a sum),
    which rounding does not respect.

    Exceptions.  A call either returns a value or raises; [result] records
    which.  The only exceptions the modelled code can raise are the one
    re-raised by [load_pricing_data] and the [KeyError] of
    [pricing_data['us-east-1']]. *)

From Stdlib Require Import QArith Qminmax Lqa.
From stdpp Require Import gmap strings list sorting.

Local Open Scope Q_scope.

(** ** Exceptions *)

Inductive exn : Type :=
  | LoadError
  | KeyError (key : string).

Inductive result (A : Type) : Type :=
  | Ok (a : A)
  | Raise (e : exn).
Arguments Ok {A} a.
Arguments Raise {A} e.

#[global] Instance result_ret : MRet result := fun A a => Ok a.
#[global] Instance result_bind : MBind result := fun A B f r =>
  match r with
  | Ok a => f a
  | Raise e => Raise e
  end.

Definition returns {A} (r : result A) : Prop := exists a, r = Ok a.
Definition raises {A} (r : result A) : Prop := exists e, r = Raise e.

(** ** The pricing document

    The shape [cloudwatch_pricing.json] must have (the file itself is data,
    not code): per region, [logs] with the two flat rates and
    [vended_logs] with one four-band schedule per storage class.  A
    document in which a region lacks one of these fields is outside the
    model. *)

Record TierSchedule : Type := {
  first_10tb : Q;
  next_20tb : Q;
  next_20tb_plus : Q;
  over_50tb : Q
}.

Record VendedLogs : Type := {
  to_cloudwatch_logs_standard : TierSchedule;
  to_cloudwatch_logs_infrequent : TierSchedule
}.

Record Logs : Type := {
  standard_ingestion : Q;
  infrequent_ingestion : Q;
  vended_logs : VendedLogs
}.

Record RegionPricing : Type := {
  logs : Logs
}.

(** [pricing_data[key]]: a missing key raises [KeyError]. *)
Definition getitem {V} (d : gmap string V) (key : string) : result V :=
  match d !! key with
  | Some v => Ok v
  | None => Raise (KeyError key)
  end.

(** [pricing_data.get(key, dflt)] *)
Definition dict_get {V} (d : gmap string V) (key : string) (dflt : V) : V :=
  default dflt (d !! key).

(** [a > b] on numbers *)
Definition Qgtb (a b : Q) : bool := negb (Qle_bool a b).

(** ** The tier thresholds (lines 99-105) *)

Definition TB_to_GB : Q := 1000.
Definition tier1_threshold : Q := 10 * TB_to_GB.
Definition tier2_threshold : Q := 30 * TB_to_GB.
Definition tier3_threshold : Q := 50 * TB_to_GB.

(** ** The band usages (lines 122-139)

    [tier1_usage] is always assigned.  [tier2_usage], [tier3_usage] and
    [tier4_usage] are assigned only under their guard: [None] is the
    unassigned local, whose band keeps the initial cost [0]. *)

Definition tier1_usage (monthly_gb : Q) : Q :=
  Qmin monthly_gb tier1_threshold.

Definition tier2_usage (monthly_gb : Q) : option Q :=
  if Qgtb monthly_gb tier1_threshold
  then Some (Qmin (monthly_gb - tier1_threshold) (tier2_threshold - tier1_threshold))
  else None.

Definition tier3_usage (monthly_gb : Q) : option Q :=
  if Qgtb monthly_gb tier2_threshold
  then Some (Qmin (monthly_gb - tier2_threshold) (tier3_threshold - tier2_threshold))
  else None.

Definition tier4_usage (monthly_gb : Q) : option Q :=
  if Qgtb monthly_gb tier3_threshold
  then Some (monthly_gb - tier3_threshold)
  else None.

(** The cost of a band: [usage * price] when the guard assigned it, the
    initial [0] otherwise. *)
Definition band_cost (usage : option Q) (price : Q) : Q :=
  match usage with
  | Some u => u * price
  | None => 0
  end.

(** The volume a band consumed: nothing when its guard did not fire. *)
Definition consumed (usage : option Q) : Q := default 0 usage.

(** ** The data of the aggregation engine *)

(** One value of [daily_usage]: [{'standard': ..., 'ia': ...}]. *)
Record DayUsage : Type := {
  standard : Q;
  ia : Q
}.

(** One element of [daily_comparisons]. *)
Module DailyComparison.
Record t : Type := {
  date : string;
  old_cost : Q;
  new_cost : Q;
  standard_gb : Q;
  ia_gb : Q;
  total_gb : Q;
  difference : Q
}.
End DailyComparison.

Record Analysis : Type := {
  total_old_cost : Q;
  total_new_cost : Q;
  total_standard_gb : Q;
  total_ia_gb : Q;
  total_gb : Q;
  daily_comparisons : list DailyComparison.t;
  region : string
}.

(** The builtin [sum]: starts from [0] and adds from the left. *)
Definition sum (values : list Q) : Q := fold_left Qplus values 0.

(** [daily_usage] is a dict from date strings to [DayUsage]: its items in
    insertion order, the keys pairwise distinct. *)
Definition dict_items_wf (items : list (string * DayUsage)) : Prop :=
  NoDup items.*1.

(** The order of [sorted] on the items.  Tuples compare by their first
    component; the second is looked at only between equal keys, which a
    dict does not have.  Strings compare lexicographically by code. *)
Definition item_le (a b : string * DayUsage) : Prop := String.le a.1 b.1.

#[global] Instance item_le_dec : RelDecision item_le.
Proof. intros a b. unfold item_le. apply _. Defined.

(** The builtin [sorted] on the items of a dict.  The keys being distinct,
    the ascending arrangement is unique ([sorted_unique] below), so the
    sorting algorithm does not matter; a merge sort stands for it. *)
Definition sorted (items : list (string * DayUsage)) : list (string * DayUsage) :=
  merge_sort item_le items.

(** ** The calculators *)

Record CostDetails : Type := {
  daily_gb_ingested : Q;
  monthly_gb_ingested : Q;
  tier1_cost : Q;
  tier2_cost : Q;
  tier3_cost : Q;
  tier4_cost : Q;
  total_monthly_cost : Q;
  total_daily_cost : Q
}.

Section Calculators.

(** What [cloudwatch_pricing.json] parses to, [None] when opening or
    parsing the file fails. *)
Variable pricing_file : option (gmap string RegionPricing).

Definition load_pricing_data : result (gmap string RegionPricing) :=
  match pricing_file with
  | Some pricing_data => Ok pricing_data
  | None => Raise LoadError
  end.

(** [pricing_data.get(region, pricing_data['us-east-1'])]: the default
    is an argument, so it is evaluated (and may raise) first. *)
Definition region_pricing_of (pricing_data : gmap string RegionPricing)
    (region : string) : result RegionPricing :=
  dflt ← getitem pricing_data "us-east-1";
  mret (dict_get pricing_data region dflt).

Definition calculate_old_cloudwatch_cost (standard_gb ia_gb : Q)
    (region : string) : result Q :=
  pricing_data ← load_pricing_data;
  region_pricing ← region_pricing_of pricing_data region;
  let standard_cost := standard_gb * standard_ingestion (logs region_pricing) in
  let ia_cost := ia_gb * infrequent_ingestion (logs region_pricing) in
  mret (standard_cost + ia_cost).

Definition calculate_new_cloudwatch_cost (daily_gb_ingested : Q) (region : string)
    (is_ia : bool) : result CostDetails :=
  pricing_data ← load_pricing_data;
  region_pricing ← region_pricing_of pricing_data region;
  let vended_logs_pricing :=
    if is_ia
    then to_cloudwatch_logs_infrequent (vended_logs (logs region_pricing))
    else to_cloudwatch_logs_standard (vended_logs (logs region_pricing)) in
  let tier1_price := first_10tb vended_logs_pricing in
  let tier2_price := next_20tb vended_logs_pricing in
  let tier3_price := next_20tb_plus vended_logs_pricing in
  let tier4_price := over_50tb vended_logs_pricing in
  let monthly_gb := daily_gb_ingested * 30 in
  let tier1_cost := tier1_usage monthly_gb * tier1_price in
  let tier2_cost := band_cost (tier2_usage monthly_gb) tier2_price in
  let tier3_cost := band_cost (tier3_usage monthly_gb) tier3_price in
  let tier4_cost := band_cost (tier4_usage monthly_gb) tier4_price in
  let total_monthly_cost := tier1_cost + tier2_cost + tier3_cost + tier4_cost in
  let total_daily_cost := total_monthly_cost / 30 in
  mret {| daily_gb_ingested := daily_gb_ingested;
          monthly_gb_ingested := monthly_gb;
          tier1_cost := tier1_cost;
          tier2_cost := tier2_cost;
          tier3_cost := tier3_cost;
          tier4_cost := tier4_cost;
          total_monthly_cost := total_monthly_cost;
          total_daily_cost := total_daily_cost |}.

(** ** The aggregation engine *)

(** The body of the loop at lines 281-299. *)
Definition daily_comparison (region : string) (item : string * DayUsage)
    : result DailyComparison.t :=
  let '(date, data) := item in
  let daily_standard_gb := standard data in
  let daily_ia_gb := ia data in
  daily_old_cost ← calculate_old_cloudwatch_cost daily_standard_gb daily_ia_gb region;
  standard_details ← calculate_new_cloudwatch_cost daily_standard_gb region false;
  let daily_standard_cost := total_daily_cost standard_details in
  ia_details ← calculate_new_cloudwatch_cost daily_ia_gb region true;
  let daily_ia_cost := total_daily_cost ia_details in
  let daily_new_cost := daily_standard_cost + daily_ia_cost in
  mret {| DailyComparison.date := date;
          DailyComparison.old_cost := daily_old_cost;
          DailyComparison.new_cost := daily_new_cost;
          DailyComparison.standard_gb := daily_standard_gb;
          DailyComparison.ia_gb := daily_ia_gb;
          DailyComparison.total_gb := daily_standard_gb + daily_ia_gb;
          DailyComparison.difference := daily_new_cost - daily_old_cost |}.

Definition analyze_costs (daily_usage : list (string * DayUsage))
    (region : string) : result Analysis :=
  let total_standard_gb := sum (standard <$> daily_usage.*2) in
  let total_ia_gb := sum (ia <$> daily_usage.*2) in
  let total_gb := total_standard_gb + total_ia_gb in
  old_cost ← calculate_old_cloudwatch_cost total_standard_gb total_ia_gb region;
  standard_cost_data ← calculate_new_cloudwatch_cost (total_standard_gb / 30) region false;
  ia_cost_data ← calculate_new_cloudwatch_cost (total_ia_gb / 30) region true;
  let new_cost := total_monthly_cost standard_cost_data + total_monthly_cost ia_cost_data in
  daily_comparisons ← mapM (daily_comparison region) (sorted daily_usage);
  mret {| total_old_cost := old_cost;
          total_new_cost := new_cost;
          total_standard_gb := total_standard_gb;
          total_ia_gb := total_ia_gb;
          total_gb := total_gb;
          daily_comparisons := daily_comparisons;
          region := region |}.

End Calculators.

(** ** A sample pricing document

    Rates in the shape of the pricing file, with the volume discount of
    the tiered model; used to run the functions on concrete inputs. *)

Definition sample_standard_schedule : TierSchedule :=
  {| first_10tb := 0.5; next_20tb := 0.25; next_20tb_plus := 0.1; over_50tb := 0.05 |}.

Definition sample_infrequent_schedule : TierSchedule :=
  {| first_10tb := 0.25; next_20tb := 0.15; next_20tb_plus := 0.075; over_50tb := 0.05 |}.

Definition sample_region : RegionPricing :=
  {| logs := {| standard_ingestion := 0.5;
                infrequent_ingestion := 0.25;
                vended_logs :=
                  {| to_cloudwatch_logs_standard := sample_standard_schedule;
                     to_cloudwatch_logs_infrequent := sample_infrequent_schedule |} |} |}.

Definition sample_pricing : gmap string RegionPricing :=
  {[ "us-east-1" := sample_region ]}.

(** Two days: the first one's volume, taken times 30, passes the first
    threshold; the month's total does not. *)
Definition sample_usage : list (string * DayUsage) :=
  [ ("2025-05-02", {| standard := 0; ia := 0 |});
    ("2025-05-01", {| standard := 480; ia := 0 |}) ].

(** ** Auxiliary notions for the statements *)

(** The pricing file loads and holds the default region. *)
Definition pricing_ok (pricing_file : option (gmap string RegionPricing)) : Prop :=
  exists pricing_data, pricing_file = Some pricing_data
    /\ is_Some (pricing_data !! "us-east-1").

(** The schedule [calculate_new_cloudwatch_cost] reads its prices from. *)
Definition selected_schedule (region_pricing : RegionPricing) (is_ia : bool)
    : TierSchedule :=
  if is_ia
  then to_cloudwatch_logs_infrequent (vended_logs (logs region_pricing))
  else to_cloudwatch_logs_standard (vended_logs (logs region_pricing)).

(** Lines 113-154 of [calculate_new_cloudwatch_cost] as a function of the
    selected schedule; [calculate_new_cloudwatch_cost_eq] below shows it is
    what the calculator returns. *)
Definition tier_breakdown (schedule : TierSchedule) (daily_gb : Q) : CostDetails :=
  let monthly_gb := daily_gb * 30 in
  let t1 := tier1_usage monthly_gb * first_10tb schedule in
  let t2 := band_cost (tier2_usage monthly_gb) (next_20tb schedule) in
  let t3 := band_cost (tier3_usage monthly_gb) (next_20tb_plus schedule) in
  let t4 := band_cost (tier4_usage monthly_gb) (over_50tb schedule) in
  {| daily_gb_ingested := daily_gb;
     monthly_gb_ingested := monthly_gb;
     tier1_cost := t1;
     tier2_cost := t2;
     tier3_cost := t3;
     tier4_cost := t4;
     total_monthly_cost := t1 + t2 + t3 + t4;
     total_daily_cost := (t1 + t2 + t3 + t4) / 30 |}.

(** All four rates of a schedule are non-negative. *)
Definition schedule_nonneg (schedule : TierSchedule) : Prop :=
  0 <= first_10tb schedule /\ 0 <= next_20tb schedule
  /\ 0 <= next_20tb_plus schedule /\ 0 <= over_50tb schedule.

(** ** The command line (lines 26-44)

    [get_region] scans [sys.argv] from the left: the first [--region] that
    is not the last argument decides, and the argument after it is the
    result; without one the result is the empty string. *)

Fixpoint get_region (argv : list string) : string :=
  match argv with
  | [] => EmptyString
  | arg :: rest =>
      match rest with
      | [] => EmptyString
      | next :: _ =>
          if decide (arg = "--region") then next else get_region rest
      end
  end.

(** Lines 170-173 and 367-370: the region of the command line unless it
    is the empty string, the region of the client otherwise. *)
Definition select_region (region_cli client_region : string) : string :=
  if decide (region_cli <> EmptyString) then region_cli else client_region.

(** ** Retrieving the usage (lines 156-254)

    The two AWS calls are parameters: what [describe_log_groups] answers
    to a token (no token on the first call) and what
    [get_metric_statistics] answers for a log group over the month
    analysed; [None] is a call that raises.  [Timestamp] holds the day of
    the datapoint as [strftime('%Y-%m-%d')] renders it.  Responses have
    the fields the code reads ([logGroupName], [Timestamp], [Sum]), so
    within the [try] only the call itself can raise.  Creating the
    clients, computing the month and logging are left out: they do not
    enter the value returned. *)

Record LogGroupEntry : Type := {
  logGroupName : string;
  logGroupClass : option string
}.

Record DescribeLogGroupsResponse : Type := {
  logGroups : option (list LogGroupEntry);
  nextToken : option string
}.

Module LogGroup.
Record t : Type := {
  name : string;
  class : string
}.
End LogGroup.

Record Datapoint : Type := {
  Timestamp : string;
  Sum : Q
}.

(** How a run of the retrieval ends: with a value, with the exception of
    a [describe_log_groups] call (nothing catches it), or still paging
    when the model's fuel is spent. *)
Inductive outcome (A : Type) : Type :=
  | Done (a : A)
  | ApiError
  | OutOfFuel.
Arguments Done {A} a.
Arguments ApiError {A}.
Arguments OutOfFuel {A}.

(** Lines 188-193: the Lambda log groups of one response, the class
    defaulting to [STANDARD]. *)
Definition lambda_log_groups (entries : list LogGroupEntry) : list LogGroup.t :=
  (fun log_group =>
     {| LogGroup.name := logGroupName log_group;
        LogGroup.class := default "STANDARD" (logGroupClass log_group) |})
  <$> filter (fun log_group => String.prefix "/aws/lambda/" (logGroupName log_group) = true)
        entries.

(** [key in d] *)
Definition dict_contains (d : list (string * DayUsage)) (key : string) : bool :=
  bool_decide (key ∈ d.*1).

(** [d[key] = f(d[key])] on a key the dict holds: the item keeps its
    place. *)
Fixpoint dict_update (d : list (string * DayUsage)) (key : string)
    (f : DayUsage -> DayUsage) : list (string * DayUsage) :=
  match d with
  | [] => []
  | (k, v) :: d' =>
      if decide (k = key) then (k, f v) :: d'
      else (k, v) :: dict_update d' key f
  end.

(** Lines 238-248: one datapoint of a log group of class [class]. *)
Definition record_datapoint (class : string)
    (daily_usage : list (string * DayUsage)) (datapoint : Datapoint)
    : list (string * DayUsage) :=
  let date := Timestamp datapoint in
  let bytes_ingested := Sum datapoint in
  let gb_ingested := bytes_ingested / (1024 * 1024 * 1024) in
  let daily_usage :=
    if dict_contains daily_usage date then daily_usage
    else daily_usage ++ [(date, {| standard := 0; ia := 0 |})] in
  if decide (class = "INFREQUENT_ACCESS")
  then dict_update daily_usage date
         (fun day => {| standard := standard day; ia := ia day + gb_ingested |})
  else dict_update daily_usage date
         (fun day => {| standard := standard day + gb_ingested; ia := ia day |}).

Section UsageRetrieval.

Variable describe_log_groups : option string -> option DescribeLogGroupsResponse.
Variable get_metric_statistics : string -> option (list Datapoint).

(** Lines 181-198, the paging loop. *)
Fixpoint fetch_log_groups (fuel : nat) (next_token : option string)
    (log_groups : list LogGroup.t) : outcome (list LogGroup.t) :=
  match fuel with
  | O => OutOfFuel
  | S fuel' =>
      match describe_log_groups next_token with
      | None => ApiError
      | Some response =>
          let log_groups :=
            log_groups ++ lambda_log_groups (default [] (logGroups response)) in
          match nextToken response with
          | None => Done log_groups
          | Some token =>
              if decide (token = EmptyString) then Done log_groups
              else fetch_log_groups fuel' (Some token) log_groups
          end
      end
  end.

(** Lines 218-251, the body of the loop over the log groups: a call that
    raises is logged and the log group left out. *)
Definition add_log_group (daily_usage : list (string * DayUsage))
    (log_group : LogGroup.t) : list (string * DayUsage) :=
  match get_metric_statistics (LogGroup.name log_group) with
  | Some datapoints =>
      fold_left (record_datapoint (LogGroup.class log_group)) datapoints daily_usage
  | None => daily_usage
  end.

(** Lines 216-254. *)
Definition collect_daily_usage (log_groups : list LogGroup.t)
    : list (string * DayUsage) :=
  fold_left add_log_group log_groups [].


End UsageRetrieval.

(** ** The report (lines 311-356)

    [format_2f] stands for the format specification [:,.2f] of Python.
    The one division is by [total_old_cost]: [truediv] is [None] where
    Python raises [ZeroDivisionError]. *)



Section Report.

Variable format_2f : Q -> string.




End Report.

(** ** Further auxiliary notions *)

(** The row [daily_comparison] builds for an item once the region's
    pricing is resolved; [daily_comparison_Ok] below shows it is what the
    loop body returns. *)
Definition daily_row (region_pricing : RegionPricing) (item : string * DayUsage)
    : DailyComparison.t :=
  let daily_old_cost :=
    standard item.2 * standard_ingestion (logs region_pricing)
    + ia item.2 * infrequent_ingestion (logs region_pricing) in
  let daily_new_cost :=
    total_daily_cost
      (tier_breakdown (selected_schedule region_pricing false) (standard item.2))
    + total_daily_cost
        (tier_breakdown (selected_schedule region_pricing true) (ia item.2)) in
  {| DailyComparison.date := item.1;
     DailyComparison.old_cost := daily_old_cost;
     DailyComparison.new_cost := daily_new_cost;
     DailyComparison.standard_gb := standard item.2;
     DailyComparison.ia_gb := ia item.2;
     DailyComparison.total_gb := standard item.2 + ia item.2;
     DailyComparison.difference := daily_new_cost - daily_old_cost |}.

(** Sample answers of the two AWS calls: one page, with a Lambda log
    group of each class and a log group that is not Lambda's. *)
Definition sample_describe (next_token : option string)
    : option DescribeLogGroupsResponse :=
  Some {| logGroups :=
            Some [ {| logGroupName := "/aws/lambda/orders"; logGroupClass := None |};
                   {| logGroupName := "/aws/ecs/web"; logGroupClass := None |};
                   {| logGroupName := "/aws/lambda/audit";
                      logGroupClass := Some "INFREQUENT_ACCESS" |} ];
          nextToken := None |}.

Definition sample_metrics (log_group_name : string) : option (list Datapoint) :=
  if decide (log_group_name = "/aws/lambda/orders")
  then Some [ {| Timestamp := "2025-05-02"; Sum := 1073741824 |};
              {| Timestamp := "2025-05-01"; Sum := 2147483648 |} ]
  else if decide (log_group_name = "/aws/lambda/audit")
  then Some [ {| Timestamp := "2025-05-01"; Sum := 1073741824 |} ]
  else None.

(** A second sample document, with a region of its own rates beside the
    default one. *)
Definition sample_other_region : RegionPricing :=
  {| logs := {| standard_ingestion := 0.57;
                infrequent_ingestion := 0.285;
                vended_logs := vended_logs (logs sample_region) |} |}.

Definition sample_pricing_two : gmap string RegionPricing :=
  <[ "eu-west-1" := sample_other_region ]> sample_pricing.

(** The volume, in GB, the datapoints of a log group report; nothing when
    the call for the log group raises. *)
Definition reported_gb (get_metric_statistics : string -> option (list Datapoint))
    (log_group : LogGroup.t) : Q :=
  match get_metric_statistics (LogGroup.name log_group) with
  | Some datapoints =>
      sum ((fun datapoint => Sum datapoint / (1024 * 1024 * 1024)) <$> datapoints)
  | None => 0
  end.

(** The log groups whose volume goes to ['ia']. *)
Definition infrequent_access (log_group : LogGroup.t) : Prop :=
  LogGroup.class log_group = "INFREQUENT_ACCESS".

#[global] Instance infrequent_access_dec (log_group : LogGroup.t) :
  Decision (infrequent_access log_group).
Proof. unfold infrequent_access. apply _. Defined.

(** Both volumes of a day are non-negative. *)
Definition volumes_nonneg (day : DayUsage) : Prop := 0 <= standard day /\ 0 <= ia day.

(** A sample document whose first band is free of charge. *)
Definition sample_free_region : RegionPricing :=
  {| logs := {| standard_ingestion := 0.5;
                infrequent_ingestion := 0.25;
                vended_logs :=
                  {| to_cloudwatch_logs_standard :=
                       {| first_10tb := 0; next_20tb := 0.25;
                          next_20tb_plus := 0.1; over_50tb := 0.05 |};
                     to_cloudwatch_logs_infrequent := sample_infrequent_schedule |} |} |}.

Definition sample_free_pricing : gmap string RegionPricing :=
  {[ "us-east-1" := sample_free_region ]}.

(** * Properties *)

(** ** Comparisons and thresholds *)

Lemma Qgtb_true (a b : Q) : Qgtb a b = true <-> b < a.
Proof.
  unfold Qgtb. rewrite negb_true_iff, <- not_true_iff_false, Qle_bool_iff.
  split; [apply Qnot_le_lt | apply Qlt_not_le].
Qed.

Lemma Qgtb_false (a b : Q) : Qgtb a b = false <-> a <= b.
Proof. unfold Qgtb. rewrite negb_false_iff. apply Qle_bool_iff. Qed.

Lemma tier1_threshold_eq : tier1_threshold == 10000.
Proof. reflexivity. Qed.

Lemma tier2_threshold_eq : tier2_threshold == 30000.
Proof. reflexivity. Qed.

Lemma tier3_threshold_eq : tier3_threshold == 50000.
Proof. reflexivity. Qed.

(** Case analysis on a guard [m > t] of the tier cascade. *)
Lemma guard_cases (m t : Q) :
  (t < m /\ Qgtb m t = true) \/ (m <= t /\ Qgtb m t = false).
Proof.
  destruct (Qgtb m t) eqn:E.
  - left. split; [by apply Qgtb_true | done].
  - right. split; [by apply Qgtb_false | done].
Qed.

(** The usage of each band in closed form. *)

Lemma tier1_usage_spec (m : Q) :
  (m <= 10000 /\ tier1_usage m == m) \/ (10000 < m /\ tier1_usage m == 10000).
Proof.
  unfold tier1_usage. pose proof tier1_threshold_eq as T1.
  destruct (Q.min_spec m tier1_threshold) as [[H E]|[H E]].
  - left. split; lra.
  - destruct (Qle_lt_or_eq _ _ H) as [Hlt|Heq].
    + right. split; lra.
    + left. split; lra.
Qed.

Lemma tier2_usage_spec (m : Q) :
  (m <= 10000 /\ tier2_usage m = None)
  \/ (10000 < m /\ exists u, tier2_usage m = Some u
        /\ u == Qmin (m - 10000) 20000).
Proof.
  unfold tier2_usage. pose proof tier1_threshold_eq as T1.
  destruct (guard_cases m tier1_threshold) as [[H ->]|[H ->]].
  - right. split; [lra|]. eexists. split; [reflexivity|].
    apply Q.min_compat; [lra | reflexivity].
  - left. split; [lra | done].
Qed.

Lemma tier3_usage_spec (m : Q) :
  (m <= 30000 /\ tier3_usage m = None)
  \/ (30000 < m /\ exists u, tier3_usage m = Some u
        /\ u == Qmin (m - 30000) 20000).
Proof.
  unfold tier3_usage. pose proof tier2_threshold_eq as T2.
  destruct (guard_cases m tier2_threshold) as [[H ->]|[H ->]].
  - right. split; [lra|]. eexists. split; [reflexivity|].
    apply Q.min_compat; [lra | reflexivity].
  - left. split; [lra | done].
Qed.

Lemma tier4_usage_spec (m : Q) :
  (m <= 50000 /\ tier4_usage m = None)
  \/ (50000 < m /\ exists u, tier4_usage m = Some u /\ u == m - 50000).
Proof.
  unfold tier4_usage. pose proof tier3_threshold_eq as T3.
  destruct (guard_cases m tier3_threshold) as [[H ->]|[H ->]].
  - right. split; [lra|]. eexists. split; [reflexivity | lra].
  - left. split; [lra | done].
Qed.

(** The volume each band consumed, as the clamp of the spec's step 3. *)

Lemma consumed_tier2 (m : Q) :
  (m <= 10000 /\ consumed (tier2_usage m) == 0)
  \/ (10000 < m <= 30000 /\ consumed (tier2_usage m) == m - 10000)
  \/ (30000 < m /\ consumed (tier2_usage m) == 20000).
Proof.
  destruct (tier2_usage_spec m) as [[H ->]|[H (u & -> & E)]]; simpl.
  - left. split; [exact H | reflexivity].
  - right. destruct (Q.min_spec (m - 10000) 20000) as [[H' E']|[H' E']].
    + left. split; [split; lra | lra].
    + destruct (Qle_lt_or_eq _ _ H') as [Hlt|Heq].
      * right. split; lra.
      * left. split; [split; lra | lra].
Qed.

Lemma consumed_tier3 (m : Q) :
  (m <= 30000 /\ consumed (tier3_usage m) == 0)
  \/ (30000 < m <= 50000 /\ consumed (tier3_usage m) == m - 30000)
  \/ (50000 < m /\ consumed (tier3_usage m) == 20000).
Proof.
  destruct (tier3_usage_spec m) as [[H ->]|[H (u & -> & E)]]; simpl.
  - left. split; [exact H | reflexivity].
  - right. destruct (Q.min_spec (m - 30000) 20000) as [[H' E']|[H' E']].
    + left. split; [split; lra | lra].
    + destruct (Qle_lt_or_eq _ _ H') as [Hlt|Heq].
      * right. split; lra.
      * left. split; [split; lra | lra].
Qed.

Lemma consumed_tier4 (m : Q) :
  (m <= 50000 /\ consumed (tier4_usage m) == 0)
  \/ (50000 < m /\ consumed (tier4_usage m) == m - 50000).
Proof.
  destruct (tier4_usage_spec m) as [[H ->]|[H (u & -> & E)]]; simpl.
  - left. split; [exact H | reflexivity].
  - right. split; [exact H | exact E].
Qed.

Lemma band_cost_consumed (usage : option Q) (price : Q) :
  band_cost usage price == consumed usage * price.
Proof. destruct usage; simpl; lra. Qed.

(** ** What the calculators return, and when they raise *)

Lemma region_pricing_of_Ok (pricing_data : gmap string RegionPricing)
    (region : string) (dflt : RegionPricing) :
  pricing_data !! "us-east-1" = Some dflt ->
  region_pricing_of pricing_data region = Ok (dict_get pricing_data region dflt).
Proof. intros H. unfold region_pricing_of, getitem. by rewrite H. Qed.

Lemma region_pricing_of_KeyError (pricing_data : gmap string RegionPricing)
    (region : string) :
  pricing_data !! "us-east-1" = None ->
  region_pricing_of pricing_data region = Raise (KeyError "us-east-1").
Proof. intros H. unfold region_pricing_of, getitem. by rewrite H. Qed.

Lemma calculate_new_cloudwatch_cost_eq file daily_gb region is_ia :
  calculate_new_cloudwatch_cost file daily_gb region is_ia
  = (pricing_data ← load_pricing_data file;
     region_pricing ← region_pricing_of pricing_data region;
     mret (tier_breakdown (selected_schedule region_pricing is_ia) daily_gb)).
Proof. reflexivity. Qed.

Lemma calculate_new_Ok file pricing_data dflt daily_gb region is_ia :
  file = Some pricing_data ->
  pricing_data !! "us-east-1" = Some dflt ->
  calculate_new_cloudwatch_cost file daily_gb region is_ia
  = Ok (tier_breakdown
          (selected_schedule (dict_get pricing_data region dflt) is_ia) daily_gb).
Proof.
  intros -> H. rewrite calculate_new_cloudwatch_cost_eq. simpl.
  by rewrite (region_pricing_of_Ok _ _ _ H).
Qed.

Lemma calculate_old_Ok file pricing_data dflt standard_gb ia_gb region :
  file = Some pricing_data ->
  pricing_data !! "us-east-1" = Some dflt ->
  calculate_old_cloudwatch_cost file standard_gb ia_gb region
  = Ok (standard_gb * standard_ingestion (logs (dict_get pricing_data region dflt))
        + ia_gb * infrequent_ingestion (logs (dict_get pricing_data region dflt))).
Proof.
  intros -> H. unfold calculate_old_cloudwatch_cost. simpl.
  by rewrite (region_pricing_of_Ok _ _ _ H).
Qed.

(** A calculator that returned has read a pricing file holding the default
    region. *)
Lemma calculate_new_Ok_inv file daily_gb region is_ia details :
  calculate_new_cloudwatch_cost file daily_gb region is_ia = Ok details ->
  exists pricing_data dflt,
    file = Some pricing_data /\ pricing_data !! "us-east-1" = Some dflt
    /\ details = tier_breakdown
         (selected_schedule (dict_get pricing_data region dflt) is_ia) daily_gb.
Proof.
  intros H. destruct file as [pd|]; [|discriminate].
  destruct (pd !! "us-east-1") as [dflt|] eqn:E.
  - exists pd, dflt. rewrite (calculate_new_Ok _ pd dflt) in H by done.
    by inversion H.
  - rewrite calculate_new_cloudwatch_cost_eq in H. simpl in H.
    rewrite (region_pricing_of_KeyError _ _ E) in H. discriminate.
Qed.

Lemma pricing_ok_inv file :
  pricing_ok file ->
  exists pricing_data dflt,
    file = Some pricing_data /\ pricing_data !! "us-east-1" = Some dflt.
Proof. intros (pd & -> & [dflt H]). by exists pd, dflt. Qed.

(** ** The four bands partition the monthly volume *)

(** C1.  For every non-negative daily volume the tiered calculator
    returns, with [monthly_gb_ingested = daily_gb * 30]; each tier cost it
    returns is the volume its band consumed times the rate of the band
    ([tier1_usage] for band 1; for bands 2 to 4 the usage assigned under
    the guard, and nothing when the guard does not fire).  These four
    volumes are each non-negative, stay within the band's width (10000,
    20000 and 20000 GB, the fourth band being unbounded) and add up to
    [monthly_gb]. *)
Theorem tier_usages_partition file pricing_data dflt region is_ia (daily_gb : Q) :
  file = Some pricing_data ->
  pricing_data !! "us-east-1" = Some dflt ->
  0 <= daily_gb ->
  let schedule := selected_schedule (dict_get pricing_data region dflt) is_ia in
  let monthly_gb := daily_gb * 30 in
  let u1 := tier1_usage monthly_gb in
  let u2 := consumed (tier2_usage monthly_gb) in
  let u3 := consumed (tier3_usage monthly_gb) in
  let u4 := consumed (tier4_usage monthly_gb) in
  exists details,
    calculate_new_cloudwatch_cost file daily_gb region is_ia = Ok details
    /\ monthly_gb_ingested details = monthly_gb
    /\ tier1_cost details = u1 * first_10tb schedule
    /\ tier2_cost details = band_cost (tier2_usage monthly_gb) (next_20tb schedule)
    /\ tier3_cost details = band_cost (tier3_usage monthly_gb) (next_20tb_plus schedule)
    /\ tier4_cost details = band_cost (tier4_usage monthly_gb) (over_50tb schedule)
    /\ tier2_cost details == u2 * next_20tb schedule
    /\ tier3_cost details == u3 * next_20tb_plus schedule
    /\ tier4_cost details == u4 * over_50tb schedule
    /\ 0 <= u1 <= 10000 /\ 0 <= u2 <= 20000 /\ 0 <= u3 <= 20000 /\ 0 <= u4
    /\ u1 + u2 + u3 + u4 == monthly_gb.
Proof.
  intros Hf Hdflt Hd. cbv zeta.
  eexists. split; [by apply (calculate_new_Ok _ pricing_data dflt)|].
  cbn [tier_breakdown monthly_gb_ingested tier1_cost tier2_cost tier3_cost tier4_cost].
  set (m := daily_gb * 30).
  assert (0 <= m) as Hm by (unfold m; lra).
  do 5 (split; [reflexivity|]).
  do 3 (split; [apply band_cost_consumed|]).
  destruct (tier1_usage_spec m) as [[H1 E1]|[H1 E1]];
  destruct (consumed_tier2 m) as [[H2 E2]|[[H2 E2]|[H2 E2]]];
  destruct (consumed_tier3 m) as [[H3 E3]|[[H3 E3]|[H3 E3]]];
  destruct (consumed_tier4 m) as [[H4 E4]|[H4 E4]];
  repeat split; lra.
Qed.

Lemma tier_usages_partition_witness :
  exists details,
    calculate_new_cloudwatch_cost (Some sample_pricing) 1500 "us-east-1" false
      = Ok details
    /\ tier1_cost details = tier1_usage (1500 * 30) * 0.5
    /\ tier1_usage (1500 * 30) + consumed (tier2_usage (1500 * 30))
       + consumed (tier3_usage (1500 * 30)) + consumed (tier4_usage (1500 * 30))
       == 1500 * 30.
Proof.
  destruct (tier_usages_partition (Some sample_pricing) sample_pricing sample_region
              "us-east-1" false 1500 eq_refl eq_refl)
    as (details & Hcall & _ & H1 & _ & _ & _ & _ & _ & _ & _ & _ & _ & _ & Hsum).
  - lra.
  - exists details. split; [exact Hcall|]. split; [exact H1 | exact Hsum].
Defined.

(** ** The bands grow with the volume *)

Lemma tier1_usage_mono (a b : Q) : a <= b -> tier1_usage a <= tier1_usage b.
Proof. intros H. unfold tier1_usage. by apply Q.min_le_compat_r. Qed.

Lemma consumed_tier2_mono (a b : Q) :
  a <= b -> consumed (tier2_usage a) <= consumed (tier2_usage b).
Proof.
  intros H.
  destruct (consumed_tier2 a) as [[? ?]|[[? ?]|[? ?]]];
  destruct (consumed_tier2 b) as [[? ?]|[[? ?]|[? ?]]]; lra.
Qed.

Lemma consumed_tier3_mono (a b : Q) :
  a <= b -> consumed (tier3_usage a) <= consumed (tier3_usage b).
Proof.
  intros H.
  destruct (consumed_tier3 a) as [[? ?]|[[? ?]|[? ?]]];
  destruct (consumed_tier3 b) as [[? ?]|[[? ?]|[? ?]]]; lra.
Qed.

Lemma consumed_tier4_mono (a b : Q) :
  a <= b -> consumed (tier4_usage a) <= consumed (tier4_usage b).
Proof.
  intros H.
  destruct (consumed_tier4 a) as [[? ?]|[? ?]];
  destruct (consumed_tier4 b) as [[? ?]|[? ?]]; lra.
Qed.

Lemma total_monthly_cost_breakdown (schedule : TierSchedule) (daily_gb : Q) :
  total_monthly_cost (tier_breakdown schedule daily_gb)
  == tier1_usage (daily_gb * 30) * first_10tb schedule
     + consumed (tier2_usage (daily_gb * 30)) * next_20tb schedule
     + consumed (tier3_usage (daily_gb * 30)) * next_20tb_plus schedule
     + consumed (tier4_usage (daily_gb * 30)) * over_50tb schedule.
Proof. simpl. rewrite !band_cost_consumed. reflexivity. Qed.

Lemma tier_breakdown_monotone (schedule : TierSchedule) (a b : Q) :
  schedule_nonneg schedule -> a <= b ->
  total_monthly_cost (tier_breakdown schedule a)
  <= total_monthly_cost (tier_breakdown schedule b).
Proof.
  intros (P1 & P2 & P3 & P4) Hab.
  rewrite !total_monthly_cost_breakdown.
  assert (a * 30 <= b * 30) as Hm by lra.
  pose proof (tier1_usage_mono _ _ Hm) as M1.
  pose proof (consumed_tier2_mono _ _ Hm) as M2.
  pose proof (consumed_tier3_mono _ _ Hm) as M3.
  pose proof (consumed_tier4_mono _ _ Hm) as M4.
  repeat apply Qplus_le_compat; by apply Qmult_le_compat_r.
Qed.

(** C4.  With non-negative rates in the schedule the calculator reads,
    [total_monthly_cost] does not decrease when the volume grows: for
    non-negative volumes [a <= b] the two calls return, and the cost at [a]
    is at most the cost at [b]. *)
Theorem total_monthly_cost_monotone file pricing_data dflt region is_ia (a b : Q) :
  file = Some pricing_data ->
  pricing_data !! "us-east-1" = Some dflt ->
  schedule_nonneg (selected_schedule (dict_get pricing_data region dflt) is_ia) ->
  0 <= a -> a <= b ->
  exists details_a details_b,
    calculate_new_cloudwatch_cost file a region is_ia = Ok details_a
    /\ calculate_new_cloudwatch_cost file b region is_ia = Ok details_b
    /\ total_monthly_cost details_a <= total_monthly_cost details_b.
Proof.
  intros Hf Hd Hs _ Hab. eexists _, _.
  split; [by apply calculate_new_Ok|].
  split; [by apply calculate_new_Ok|].
  by apply tier_breakdown_monotone.
Qed.

Lemma total_monthly_cost_monotone_witness :
  exists details_a details_b,
    calculate_new_cloudwatch_cost (Some sample_pricing) 100 "us-east-1" false
      = Ok details_a
    /\ calculate_new_cloudwatch_cost (Some sample_pricing) 2000 "us-east-1" false
      = Ok details_b
    /\ total_monthly_cost details_a <= total_monthly_cost details_b.
Proof.
  apply (total_monthly_cost_monotone (Some sample_pricing) sample_pricing
           sample_region "us-east-1" false 100 2000).
  - reflexivity.
  - reflexivity.
  - vm_compute. repeat split; discriminate.
  - lra.
  - lra.
Defined.

(** ** Volumes at and around the first threshold *)

(** C3.  The calculator returns, and [tier1_cost] is [tier1_usage] times the
    [first_10tb] rate.  When [monthly_gb] is exactly 10000 the whole
    volume is in band 1: [tier1_usage] is [monthly_gb], the guards of
    bands 2 to 4 do not fire, their costs are [0] and the total is the
    cost of band 1.  When [monthly_gb] exceeds 10000, band 1 holds 10000,
    band 2 holds the excess up to its width of 20000 and is charged for
    it, and the four bands still add up to [monthly_gb], so no volume is
    counted twice. *)
Theorem first_threshold_attribution file pricing_data dflt region is_ia
    (daily_gb : Q) :
  file = Some pricing_data ->
  pricing_data !! "us-east-1" = Some dflt ->
  let schedule := selected_schedule (dict_get pricing_data region dflt) is_ia in
  let monthly_gb := daily_gb * 30 in
  exists details,
    calculate_new_cloudwatch_cost file daily_gb region is_ia = Ok details
    /\ monthly_gb_ingested details = monthly_gb
    /\ tier1_cost details = tier1_usage monthly_gb * first_10tb schedule
    /\ (monthly_gb == 10000 ->
        tier1_usage monthly_gb == monthly_gb
        /\ tier1_cost details == monthly_gb * first_10tb schedule
        /\ tier2_usage monthly_gb = None
        /\ tier3_usage monthly_gb = None
        /\ tier4_usage monthly_gb = None
        /\ tier2_cost details = 0
        /\ tier3_cost details = 0
        /\ tier4_cost details = 0
        /\ total_monthly_cost details = tier1_cost details + 0 + 0 + 0)
    /\ (10000 < monthly_gb ->
        tier1_usage monthly_gb == 10000
        /\ tier1_cost details == 10000 * first_10tb schedule
        /\ (exists u2, tier2_usage monthly_gb = Some u2
              /\ u2 == Qmin (monthly_gb - 10000) 20000
              /\ tier2_cost details = u2 * next_20tb schedule)
        /\ tier3_cost details
           = band_cost (tier3_usage monthly_gb) (next_20tb_plus schedule)
        /\ tier4_cost details
           = band_cost (tier4_usage monthly_gb) (over_50tb schedule)
        /\ tier1_usage monthly_gb + consumed (tier2_usage monthly_gb)
           + consumed (tier3_usage monthly_gb) + consumed (tier4_usage monthly_gb)
           == monthly_gb).
Proof.
  intros Hf Hd. cbv zeta.
  eexists. split; [by apply (calculate_new_Ok _ pricing_data dflt)|].
  cbn [tier_breakdown monthly_gb_ingested tier1_cost tier2_cost tier3_cost
       tier4_cost total_monthly_cost].
  set (m := daily_gb * 30).
  split; [reflexivity|]. split; [reflexivity|].
  split.
  - intros Hm.
    destruct (tier1_usage_spec m) as [[H1 E1]|[H1 E1]]; [|lra].
    destruct (tier2_usage_spec m) as [[H2 E2]|[H2 _]]; [|lra].
    destruct (tier3_usage_spec m) as [[H3 E3]|[H3 _]]; [|lra].
    destruct (tier4_usage_spec m) as [[H4 E4]|[H4 _]]; [|lra].
    rewrite E2, E3, E4. simpl band_cost.
    split; [exact E1|]. split; [by rewrite E1|]. by repeat split.
  - intros Hm.
    destruct (tier1_usage_spec m) as [[H1 E1]|[H1 E1]]; [lra|].
    split; [exact E1|]. split; [by rewrite E1|].
    split.
    + destruct (tier2_usage_spec m) as [[H2 _]|[_ (u2 & E2 & Hu2)]]; [lra|].
      exists u2. rewrite E2. by repeat split.
    + split; [reflexivity|]. split; [reflexivity|].
      destruct (consumed_tier2 m) as [[H2 E2]|[[H2 E2]|[H2 E2]]];
      destruct (consumed_tier3 m) as [[H3 E3]|[[H3 E3]|[H3 E3]]];
      destruct (consumed_tier4 m) as [[H4 E4]|[H4 E4]]; lra.
Qed.

Lemma pricing_ok_sample : pricing_ok (Some sample_pricing).
Proof. exists sample_pricing. split; [reflexivity | by exists sample_region]. Defined.

Lemma first_threshold_attribution_witness :
  (exists details,
     calculate_new_cloudwatch_cost (Some sample_pricing) (1000 / 3) "us-east-1" false
       = Ok details
     /\ tier1_usage (1000 / 3 * 30) == 1000 / 3 * 30
     /\ tier2_cost details = 0
     /\ total_monthly_cost details = tier1_cost details + 0 + 0 + 0)
  /\ (exists details,
        calculate_new_cloudwatch_cost (Some sample_pricing) 400 "us-east-1" false
          = Ok details
        /\ tier1_cost details == 10000 * 0.5
        /\ tier1_usage (400 * 30) + consumed (tier2_usage (400 * 30))
           + consumed (tier3_usage (400 * 30)) + consumed (tier4_usage (400 * 30))
           == 400 * 30).
Proof.
  split.
  - destruct (first_threshold_attribution (Some sample_pricing) sample_pricing
                sample_region "us-east-1" false (1000 / 3) eq_refl eq_refl)
      as (details & Hcall & _ & _ & Hat & _).
    exists details. split; [exact Hcall|].
    destruct Hat as (H1 & _ & _ & _ & _ & H2 & _ & _ & Htotal); [reflexivity|].
    by repeat split.
  - destruct (first_threshold_attribution (Some sample_pricing) sample_pricing
                sample_region "us-east-1" false 400 eq_refl eq_refl)
      as (details & Hcall & _ & _ & _ & Habove).
    exists details. split; [exact Hcall|].
    destruct Habove as (_ & Hcost & _ & _ & _ & Hsum); [lra|].
    split; [exact Hcost | exact Hsum].
Defined.

(** ** Volumes within the first band, negative ones included *)

(** C10, as stated, fails in its last clause: a negative input does not
    always yield a negative cost.  With a [first_10tb] rate of zero, [-1]
    GB a day (a monthly volume of [-30], within the first band) costs
    nothing. *)
Lemma negative_usage_at_zero_rate :
  -1 * 30 <= 10000
  /\ exists details,
       calculate_new_cloudwatch_cost (Some sample_free_pricing) (-1) "us-east-1" false
         = Ok details
       /\ total_monthly_cost details == 0
       /\ total_daily_cost details == 0
       /\ ~ total_monthly_cost details < 0
       /\ ~ total_daily_cost details < 0.
Proof.
  split; [vm_compute; discriminate|].
  eexists. split; [vm_compute; reflexivity|].
  repeat split; try reflexivity; vm_compute; discriminate.
Qed.

(** C10, amended.  For every daily volume [d] with [d * 30 <= 10000],
    negative ones included, the tiered calculator returns; the costs of
    bands 2 to 4 are [0], [total_monthly_cost] is [30 * d] times the
    [first_10tb] rate, and [total_daily_cost] is [total_monthly_cost / 30].
    A negative volume yields a negative cost when that rate is positive,
    and a zero cost when the rate is zero. *)
Theorem first_band_only file pricing_data dflt region is_ia (d : Q) :
  file = Some pricing_data ->
  pricing_data !! "us-east-1" = Some dflt ->
  d * 30 <= 10000 ->
  let rate := first_10tb (selected_schedule (dict_get pricing_data region dflt) is_ia) in
  exists details,
    calculate_new_cloudwatch_cost file d region is_ia = Ok details
    /\ tier1_cost details = tier1_usage (d * 30) * rate
    /\ tier2_cost details = 0
    /\ tier3_cost details = 0
    /\ tier4_cost details = 0
    /\ total_monthly_cost details = tier1_cost details + 0 + 0 + 0
    /\ total_monthly_cost details == 30 * d * rate
    /\ total_daily_cost details = total_monthly_cost details / 30
    /\ (d < 0 -> 0 < rate ->
        total_monthly_cost details < 0 /\ total_daily_cost details < 0)
    /\ (rate == 0 ->
        total_monthly_cost details == 0 /\ total_daily_cost details == 0).
Proof.
  intros Hf Hd Hm. cbv zeta.
  eexists. split; [by apply (calculate_new_Ok _ pricing_data dflt)|].
  set (rate := first_10tb _).
  cbn [tier_breakdown tier1_cost tier2_cost tier3_cost tier4_cost
       total_monthly_cost total_daily_cost].
  fold rate. set (m := d * 30) in *.
  destruct (tier1_usage_spec m) as [[H1 E1]|[H1 E1]]; [|lra].
  destruct (tier2_usage_spec m) as [[H2 E2]|[H2 _]]; [|lra].
  destruct (tier3_usage_spec m) as [[H3 E3]|[H3 _]]; [|lra].
  destruct (tier4_usage_spec m) as [[H4 E4]|[H4 _]]; [|lra].
  rewrite E2, E3, E4. simpl band_cost.
  assert (tier1_usage m * rate + 0 + 0 + 0 == 30 * d * rate) as Hmonth.
  { rewrite E1. unfold m. ring. }
  assert ((tier1_usage m * rate + 0 + 0 + 0) / 30 == d * rate) as Hday.
  { rewrite Hmonth. field. }
  do 5 (split; [reflexivity|]).
  split; [exact Hmonth|]. split; [reflexivity|].
  split.
  - intros Hneg Hrate. split; [rewrite Hmonth | rewrite Hday]; nra.
  - intros Hzero. split; [rewrite Hmonth | rewrite Hday]; rewrite Hzero; ring.
Qed.

Lemma first_band_only_witness :
  exists details,
    calculate_new_cloudwatch_cost (Some sample_pricing) (-1) "eu-west-9" false
      = Ok details
    /\ total_daily_cost details = total_monthly_cost details / 30
    /\ total_monthly_cost details < 0.
Proof.
  destruct (first_band_only (Some sample_pricing) sample_pricing sample_region
              "eu-west-9" false (-1) eq_refl eq_refl)
    as (details & Hcall & _ & _ & _ & _ & _ & _ & Hday & Hneg & _).
  - lra.
  - exists details. split; [exact Hcall|]. split; [exact Hday|].
    apply Hneg; [lra | reflexivity].
Defined.

(** ** Negative usage *)

(** C2, as stated, fails: on a negative volume neither calculator raises.
    With the sample pricing, [-1] GB of standard logs costs [-0.5] under
    the flat model, and the tiered model returns a breakdown whose monthly
    total is [-15]. *)
Lemma negative_usage_is_not_rejected :
  ~ raises (calculate_old_cloudwatch_cost (Some sample_pricing) (-1) 0 "us-east-1")
  /\ ~ raises (calculate_new_cloudwatch_cost (Some sample_pricing) (-1) "us-east-1" false)
  /\ (exists cost,
        calculate_old_cloudwatch_cost (Some sample_pricing) (-1) 0 "us-east-1" = Ok cost
        /\ cost == -0.5)
  /\ (exists details,
        calculate_new_cloudwatch_cost (Some sample_pricing) (-1) "us-east-1" false
          = Ok details
        /\ total_monthly_cost details == -15).
Proof.
  split; [intros [e He]; vm_compute in He; discriminate|].
  split; [intros [e He]; vm_compute in He; discriminate|].
  split; eexists; (split; [vm_compute; reflexivity | reflexivity]).
Qed.

(** C2, amended.  Whenever the pricing file loads and holds [us-east-1],
    both calculators return on negative usage as on any other: the flat
    calculator returns [standard_gb * standard_ingestion + ia_gb *
    infrequent_ingestion] of the resolved region, and the tiered
    calculator returns the breakdown of the negative volume, all of it in
    band 1. *)
Theorem negative_usage_is_computed file pricing_data dflt region :
  file = Some pricing_data ->
  pricing_data !! "us-east-1" = Some dflt ->
  let region_pricing := dict_get pricing_data region dflt in
  (forall standard_gb ia_gb : Q,
     standard_gb < 0 \/ ia_gb < 0 ->
     calculate_old_cloudwatch_cost file standard_gb ia_gb region
     = Ok (standard_gb * standard_ingestion (logs region_pricing)
           + ia_gb * infrequent_ingestion (logs region_pricing)))
  /\ (forall (daily_gb : Q) (is_ia : bool),
        daily_gb < 0 ->
        exists details,
          calculate_new_cloudwatch_cost file daily_gb region is_ia = Ok details
          /\ daily_gb_ingested details = daily_gb
          /\ tier1_cost details
             == daily_gb * 30 * first_10tb (selected_schedule region_pricing is_ia)
          /\ total_monthly_cost details == tier1_cost details).
Proof.
  intros Hf Hd. cbv zeta. split.
  - intros s i _. by apply calculate_old_Ok.
  - intros d is_ia Hneg.
    eexists. split; [by apply (calculate_new_Ok _ pricing_data dflt)|].
    simpl. set (m := d * 30).
    destruct (tier1_usage_spec m) as [[H1 E1]|[H1 E1]]; [|unfold m in H1; lra].
    destruct (tier2_usage_spec m) as [[H2 E2]|[H2 _]]; [|lra].
    destruct (tier3_usage_spec m) as [[H3 E3]|[H3 _]]; [|lra].
    destruct (tier4_usage_spec m) as [[H4 E4]|[H4 _]]; [|lra].
    rewrite E2, E3, E4. simpl.
    split; [reflexivity|]. split; [by rewrite E1 | ring].
Qed.

Lemma negative_usage_is_computed_witness :
  calculate_old_cloudwatch_cost (Some sample_pricing) (-1) (-2) "us-east-1"
  = Ok (-1 * standard_ingestion (logs (dict_get sample_pricing "us-east-1" sample_region))
        + -2 * infrequent_ingestion (logs (dict_get sample_pricing "us-east-1" sample_region))).
Proof.
  destruct (negative_usage_is_computed (Some sample_pricing) sample_pricing
              sample_region "us-east-1" eq_refl eq_refl) as [Hold _].
  apply Hold. left. lra.
Defined.

(** ** Regions the pricing document does not list *)

(** C5.  When the pricing file loads and holds [us-east-1], a region it
    does not list is priced with the rates of [us-east-1]: both
    calculators return, and return what the same call with
    [region = "us-east-1"] returns. *)
Theorem unknown_region_uses_default file pricing_data dflt region :
  file = Some pricing_data ->
  pricing_data !! "us-east-1" = Some dflt ->
  pricing_data !! region = None ->
  forall (standard_gb ia_gb daily_gb : Q) (is_ia : bool),
    calculate_old_cloudwatch_cost file standard_gb ia_gb region
    = Ok (standard_gb * standard_ingestion (logs dflt)
          + ia_gb * infrequent_ingestion (logs dflt))
    /\ calculate_old_cloudwatch_cost file standard_gb ia_gb region
       = calculate_old_cloudwatch_cost file standard_gb ia_gb "us-east-1"
    /\ calculate_new_cloudwatch_cost file daily_gb region is_ia
       = Ok (tier_breakdown (selected_schedule dflt is_ia) daily_gb)
    /\ calculate_new_cloudwatch_cost file daily_gb region is_ia
       = calculate_new_cloudwatch_cost file daily_gb "us-east-1" is_ia.
Proof.
  intros Hf Hd Hr s i d is_ia.
  rewrite !(calculate_old_Ok _ pricing_data dflt) by done.
  rewrite !(calculate_new_Ok _ pricing_data dflt) by done.
  unfold dict_get. rewrite Hr, Hd. simpl. done.
Qed.

Lemma unknown_region_uses_default_witness :
  calculate_new_cloudwatch_cost (Some sample_pricing) 12 "eu-west-9" true
  = calculate_new_cloudwatch_cost (Some sample_pricing) 12 "us-east-1" true.
Proof.
  apply (unknown_region_uses_default (Some sample_pricing) sample_pricing
           sample_region "eu-west-9" eq_refl eq_refl eq_refl 1 1 12 true).
Defined.

(** ** The aggregation engine *)

Section Engine.

Context {A B : Type} (f : A -> result B).

Lemma mapM_Ok_Forall2 (l : list A) (rows : list B) :
  mapM f l = Ok rows -> Forall2 (fun x row => f x = Ok row) l rows.
Proof.
  revert rows. induction l as [|x l IH]; intros rows H; simpl in H.
  - inversion H. constructor.
  - destruct (f x) as [y|e] eqn:Ex; simpl in H; [|discriminate].
    destruct (mapM f l) as [k|e] eqn:El; simpl in H; [|discriminate].
    inversion H; subst. constructor; [exact Ex | by apply IH].
Qed.

Lemma mapM_returns (l : list A) :
  Forall (fun x => returns (f x)) l -> returns (mapM f l).
Proof.
  induction 1 as [|x l [y Hy] _ [k Hk]]; simpl.
  - by exists [].
  - exists (y :: k). by rewrite Hy, Hk.
Qed.

End Engine.

Lemma item_le_total : Total item_le.
Proof. intros a b. unfold item_le. apply (total String.le). Qed.

Lemma item_le_trans : Transitive item_le.
Proof. intros a b c. unfold item_le. apply (transitivity (R := String.le)). Qed.

Lemma sorted_Permutation (items : list (string * DayUsage)) :
  sorted items ≡ₚ items.
Proof. apply merge_sort_Permutation. Qed.

Lemma sorted_StronglySorted (items : list (string * DayUsage)) :
  StronglySorted String.le (sorted items).*1.
Proof.
  apply (StronglySorted_fmap fst item_le); [by intros a b|].
  apply (@StronglySorted_merge_sort _ item_le _ item_le_trans item_le_total).
Qed.

(** Two items of a dict with the same key are the same item. *)
Lemma dict_items_functional (items : list (string * DayUsage)) key v1 v2 :
  dict_items_wf items -> (key, v1) ∈ items -> (key, v2) ∈ items -> v1 = v2.
Proof.
  unfold dict_items_wf. induction items as [|[k v] items IH]; intros Hnd H1 H2.
  - by apply elem_of_nil in H1.
  - simpl in Hnd. apply NoDup_cons in Hnd as [Hnotin Hnd].
    apply elem_of_cons in H1 as [H1|H1]; apply elem_of_cons in H2 as [H2|H2].
    + congruence.
    + inversion H1; subst. exfalso. apply Hnotin.
      apply list_elem_of_fmap. by exists (k, v2).
    + inversion H2; subst. exfalso. apply Hnotin.
      apply list_elem_of_fmap. by exists (k, v1).
    + by apply IH.
Qed.

(** Two arrangements of a dict's items with the same sequence of keys are
    the same list. *)
Lemma same_keys_same_items (l1 l2 : list (string * DayUsage)) :
  dict_items_wf l1 -> l1.*1 = l2.*1 -> (forall x, x ∈ l2 -> x ∈ l1) -> l1 = l2.
Proof.
  revert l2. induction l1 as [|[k v] l1 IH]; intros [|[k' v'] l2] Hwf Hkeys Hsub;
    try discriminate; [done|].
  simpl in Hkeys. injection Hkeys as -> Hkeys.
  assert (v = v') as <-.
  { apply (dict_items_functional ((k', v) :: l1) k'); [done|left|].
    apply Hsub. left. }
  pose proof Hwf as Hwf'. unfold dict_items_wf in Hwf'. simpl in Hwf'.
  apply NoDup_cons in Hwf' as [Hnotin Hnd].
  f_equal. apply IH; [exact Hnd | exact Hkeys |].
  intros x Hx. assert (x ∈ (k', v) :: l1) as Hin by (apply Hsub; by right).
  apply elem_of_cons in Hin as [->|Hin]; [|exact Hin].
  exfalso. apply Hnotin. rewrite Hkeys.
  apply list_elem_of_fmap. by exists (k', v).
Qed.

(** Whatever algorithm sorts the items of a dict by key, its result is
    [sorted items]. *)
Lemma sorted_unique (items arranged : list (string * DayUsage)) :
  dict_items_wf items ->
  arranged ≡ₚ items ->
  StronglySorted item_le arranged ->
  arranged = sorted items.
Proof.
  intros Hwf Hperm Hsorted.
  assert (dict_items_wf arranged) as Hwf'.
  { unfold dict_items_wf in *. by rewrite Hperm. }
  apply same_keys_same_items; [exact Hwf' | |].
  - apply (StronglySorted_unique String.le).
    + by apply (StronglySorted_fmap fst item_le).
    + apply sorted_StronglySorted.
    + by rewrite Hperm, sorted_Permutation.
  - intros x Hx. by rewrite Hperm, <- sorted_Permutation.
Qed.

(** A sorted list without repetition ascends strictly. *)
Lemma StronglySorted_strict (dates : list string) :
  StronglySorted String.le dates -> NoDup dates ->
  StronglySorted (strict String.le) dates.
Proof.
  induction 1 as [|d dates Hs IH Hall]; intros Hnd; [constructor|].
  apply NoDup_cons in Hnd as [Hnotin Hnd].
  constructor; [by apply IH|].
  rewrite Forall_forall in Hall |- *. intros d' Hin.
  split; [by apply Hall|].
  intros Hrev. apply Hnotin.
  assert (d = d') as -> by (apply (anti_symm String.le); [by apply Hall | done]).
  done.
Qed.

Lemma daily_comparison_returns file region (item : string * DayUsage) :
  pricing_ok file -> returns (daily_comparison file region item).
Proof.
  intros Hok. destruct (pricing_ok_inv _ Hok) as (pd & dflt & Hf & Hd).
  destruct item as [date data]. unfold daily_comparison.
  rewrite (calculate_old_Ok _ pd dflt) by done.
  rewrite !(calculate_new_Ok _ pd dflt) by done.
  simpl. by eexists.
Qed.

Lemma daily_comparison_date file region (item : string * DayUsage) row :
  daily_comparison file region item = Ok row ->
  DailyComparison.date row = item.1
  /\ DailyComparison.standard_gb row = standard item.2
  /\ DailyComparison.ia_gb row = ia item.2.
Proof.
  destruct item as [date data]. unfold daily_comparison.
  destruct (calculate_old_cloudwatch_cost _ _ _ _) as [old|]; [|discriminate].
  destruct (calculate_new_cloudwatch_cost _ _ _ false) as [s|]; [|discriminate].
  destruct (calculate_new_cloudwatch_cost _ _ _ true) as [i|]; [|discriminate].
  simpl. intros H. inversion H. done.
Qed.

(** The dates of the rows are the dates of the sorted items. *)
Lemma rows_dates file region (items : list (string * DayUsage)) rows :
  mapM (daily_comparison file region) items = Ok rows ->
  DailyComparison.date <$> rows = items.*1.
Proof.
  intros H. apply mapM_Ok_Forall2 in H.
  induction H as [|item row items rows Hrow _ IH]; [done|].
  simpl. f_equal; [by apply (daily_comparison_date file region) | exact IH].
Qed.

(** With a pricing file that loads and holds the default region,
    [analyze_costs] returns, and returns this. *)
Lemma analyze_costs_Ok file pricing_data dflt usage region :
  file = Some pricing_data ->
  pricing_data !! "us-east-1" = Some dflt ->
  let region_pricing := dict_get pricing_data region dflt in
  let total_standard := sum (standard <$> usage.*2) in
  let total_infrequent := sum (ia <$> usage.*2) in
  exists rows,
    mapM (daily_comparison file region) (sorted usage) = Ok rows
    /\ analyze_costs file usage region
       = Ok {| total_old_cost :=
                 total_standard * standard_ingestion (logs region_pricing)
                 + total_infrequent * infrequent_ingestion (logs region_pricing);
               total_new_cost :=
                 total_monthly_cost
                   (tier_breakdown (selected_schedule region_pricing false)
                      (total_standard / 30))
                 + total_monthly_cost
                     (tier_breakdown (selected_schedule region_pricing true)
                        (total_infrequent / 30));
               total_standard_gb := total_standard;
               total_ia_gb := total_infrequent;
               total_gb := total_standard + total_infrequent;
               daily_comparisons := rows;
               region := region |}.
Proof.
  intros Hf Hd. cbv zeta.
  destruct (mapM_returns (daily_comparison file region) (sorted usage))
    as [rows Hrows].
  { apply Forall_forall. intros item _. apply daily_comparison_returns.
    exists pricing_data. by rewrite Hd. }
  exists rows. split; [exact Hrows|].
  unfold analyze_costs.
  rewrite (calculate_old_Ok _ pricing_data dflt) by done.
  rewrite !(calculate_new_Ok _ pricing_data dflt) by done.
  simpl. by rewrite Hrows.
Qed.

(** C6.  On an empty usage collection [analyze_costs] returns (the pricing
    file loading and holding the default region): the five totals are
    zero and there is no daily row. *)
Theorem analyze_costs_empty file region :
  pricing_ok file ->
  exists analysis,
    analyze_costs file [] region = Ok analysis
    /\ total_standard_gb analysis == 0
    /\ total_ia_gb analysis == 0
    /\ total_gb analysis == 0
    /\ total_old_cost analysis == 0
    /\ total_new_cost analysis == 0
    /\ daily_comparisons analysis = [].
Proof.
  intros Hok. destruct (pricing_ok_inv _ Hok) as (pd & dflt & Hf & Hd).
  destruct (analyze_costs_Ok file pd dflt [] region Hf Hd) as (rows & Hrows & Hcall).
  eexists. split; [exact Hcall|].
  assert (rows = []) as -> by (simpl in Hrows; by inversion Hrows).
  simpl. repeat split; reflexivity.
Qed.

Lemma analyze_costs_empty_witness :
  exists analysis,
    analyze_costs (Some sample_pricing) [] "us-east-1" = Ok analysis
    /\ total_new_cost analysis == 0
    /\ daily_comparisons analysis = [].
Proof.
  destruct (analyze_costs_empty (Some sample_pricing) "us-east-1" pricing_ok_sample)
    as (analysis & Hcall & _ & _ & _ & _ & Hnew & Hrows).
  by exists analysis.
Defined.

(** C7.  For every usage input and region (the pricing file loading and
    holding the default region), [analyze_costs] returns;
    [total_old_cost] is what the flat calculator returns on the summed
    totals, and [total_new_cost] is the sum of the [total_monthly_cost] of
    two tiered calls, one on [total_standard_gb / 30] with the standard
    schedule and one on [total_ia_gb / 30] with the infrequent one. *)
Theorem analyze_costs_totals file pricing_data dflt usage region :
  file = Some pricing_data ->
  pricing_data !! "us-east-1" = Some dflt ->
  let region_pricing := dict_get pricing_data region dflt in
  exists analysis old_cost standard_cost_data ia_cost_data,
    analyze_costs file usage region = Ok analysis
    /\ total_standard_gb analysis = sum (standard <$> usage.*2)
    /\ total_ia_gb analysis = sum (ia <$> usage.*2)
    /\ calculate_old_cloudwatch_cost file
         (total_standard_gb analysis) (total_ia_gb analysis) region = Ok old_cost
    /\ total_old_cost analysis = old_cost
    /\ calculate_new_cloudwatch_cost file
         (total_standard_gb analysis / 30) region false = Ok standard_cost_data
    /\ standard_cost_data
       = tier_breakdown
           (to_cloudwatch_logs_standard (vended_logs (logs region_pricing)))
           (total_standard_gb analysis / 30)
    /\ calculate_new_cloudwatch_cost file
         (total_ia_gb analysis / 30) region true = Ok ia_cost_data
    /\ ia_cost_data
       = tier_breakdown
           (to_cloudwatch_logs_infrequent (vended_logs (logs region_pricing)))
           (total_ia_gb analysis / 30)
    /\ total_new_cost analysis
       = total_monthly_cost standard_cost_data + total_monthly_cost ia_cost_data.
Proof.
  intros Hf Hd. cbv zeta.
  destruct (analyze_costs_Ok file pricing_data dflt usage region Hf Hd)
    as (rows & _ & Hcall).
  eexists _, _, _, _. split; [exact Hcall|]. cbn [total_standard_gb total_ia_gb
    total_old_cost total_new_cost].
  split; [reflexivity|]. split; [reflexivity|].
  split; [by apply calculate_old_Ok|]. split; [reflexivity|].
  split; [by apply (calculate_new_Ok _ pricing_data dflt)|].
  split; [reflexivity|].
  split; [by apply (calculate_new_Ok _ pricing_data dflt)|].
  split; reflexivity.
Qed.

Lemma analyze_costs_totals_witness :
  exists analysis,
    analyze_costs (Some sample_pricing) sample_usage "us-east-1" = Ok analysis
    /\ total_standard_gb analysis = sum (standard <$> sample_usage.*2).
Proof.
  destruct (analyze_costs_totals (Some sample_pricing) sample_pricing sample_region
              sample_usage "us-east-1" eq_refl eq_refl)
    as (analysis & _ & _ & _ & Hcall & Hstd & _).
  by exists analysis.
Defined.

(** C8.  The daily rows come in ascending order of date, one row for each
    date of the input: the dates of the rows ascend strictly and are a
    rearrangement of the dates of [daily_usage]. *)
Theorem daily_rows_sorted_one_per_date file usage region :
  pricing_ok file ->
  dict_items_wf usage ->
  exists analysis,
    analyze_costs file usage region = Ok analysis
    /\ let dates := DailyComparison.date <$> daily_comparisons analysis in
       StronglySorted String.le dates
       /\ StronglySorted (strict String.le) dates
       /\ dates ≡ₚ usage.*1
       /\ NoDup dates
       /\ length (daily_comparisons analysis) = length usage.
Proof.
  intros Hok Hwf. destruct (pricing_ok_inv _ Hok) as (pd & dflt & Hf & Hd).
  destruct (analyze_costs_Ok file pd dflt usage region Hf Hd)
    as (rows & Hrows & Hcall).
  eexists. split; [exact Hcall|]. cbn [daily_comparisons].
  pose proof (rows_dates _ _ _ _ Hrows) as Hdates.
  assert ((sorted usage).*1 ≡ₚ usage.*1) as Hperm
    by (apply fmap_Permutation, sorted_Permutation).
  assert (NoDup (sorted usage).*1) as Hnd by (by rewrite Hperm).
  rewrite Hdates.
  split; [apply sorted_StronglySorted|].
  split; [by apply StronglySorted_strict; [apply sorted_StronglySorted|]|].
  split; [exact Hperm|]. split; [exact Hnd|].
  rewrite <- (length_fmap DailyComparison.date), Hdates, length_fmap.
  apply Permutation_length, sorted_Permutation.
Qed.

Lemma dict_items_wf_sample : dict_items_wf sample_usage.
Proof. unfold dict_items_wf. apply (bool_decide_unpack _). vm_compute. exact I. Defined.

Lemma daily_rows_sorted_one_per_date_witness :
  exists analysis,
    analyze_costs (Some sample_pricing) sample_usage "us-east-1" = Ok analysis
    /\ StronglySorted String.le (DailyComparison.date <$> daily_comparisons analysis).
Proof.
  destruct (daily_rows_sorted_one_per_date (Some sample_pricing) sample_usage
              "us-east-1" pricing_ok_sample dict_items_wf_sample)
    as (analysis & Hcall & Hsorted & _).
  by exists analysis.
Defined.

(** C9.  There is a usage input on which the daily rows' [new_cost] do not
    add up to [total_new_cost]: with rates that fall from band to band, a
    day of 480 GB (14400 GB when taken times 30, beyond the first
    threshold) and a day of none, the rows add up to 610 / 3 while the
    total, computed from the month's 480 GB, is 240. *)
Theorem daily_new_costs_do_not_add_up :
  exists file usage region analysis,
    dict_items_wf usage
    /\ analyze_costs file usage region = Ok analysis
    /\ sum (DailyComparison.new_cost <$> daily_comparisons analysis) == 610 / 3
    /\ total_new_cost analysis == 240
    /\ ~ sum (DailyComparison.new_cost <$> daily_comparisons analysis)
         == total_new_cost analysis.
Proof.
  exists (Some sample_pricing), sample_usage, "us-east-1".
  eexists. split; [exact dict_items_wf_sample|].
  split; [vm_compute; reflexivity|].
  split; [reflexivity|]. split; [reflexivity|].
  vm_compute. discriminate.
Qed.

(** * Further properties of the calculators *)

Lemma total_monthly_cost_ranges (schedule : TierSchedule) (d : Q) :
  let m := d * 30 in
  let total := total_monthly_cost (tier_breakdown schedule d) in
  (m <= 10000 -> total == m * first_10tb schedule)
  /\ (10000 < m <= 30000 ->
      total == 10000 * first_10tb schedule + (m - 10000) * next_20tb schedule)
  /\ (30000 < m <= 50000 ->
      total == 10000 * first_10tb schedule + 20000 * next_20tb schedule
               + (m - 30000) * next_20tb_plus schedule)
  /\ (50000 < m ->
      total == 10000 * first_10tb schedule + 20000 * next_20tb schedule
               + 20000 * next_20tb_plus schedule + (m - 50000) * over_50tb schedule).
Proof.
  cbv zeta. rewrite total_monthly_cost_breakdown. set (m := d * 30).
  repeat split; intros Hm;
    destruct (tier1_usage_spec m) as [[H1 E1]|[H1 E1]]; try lra;
    destruct (consumed_tier2 m) as [[H2 E2]|[[H2 E2]|[H2 E2]]]; try lra;
    destruct (consumed_tier3 m) as [[H3 E3]|[[H3 E3]|[H3 E3]]]; try lra;
    destruct (consumed_tier4 m) as [[H4 E4]|[H4 E4]]; try lra;
    rewrite E1, E2, E3, E4; ring.
Qed.

(** X2.  The monthly cost in closed form, band by band.  With
    [m = daily_gb * 30] and rates [p1 .. p4]: up to 10000 GB the cost is
    [m * p1]; up to 30000 it is [10000 * p1 + (m - 10000) * p2]; up to
    50000 it is [10000 * p1 + 20000 * p2 + (m - 30000) * p3]; beyond, it is
    [10000 * p1 + 20000 * p2 + 20000 * p3 + (m - 50000) * p4]. *)
Theorem total_monthly_cost_closed_form file pricing_data dflt region is_ia (d : Q) :
  file = Some pricing_data ->
  pricing_data !! "us-east-1" = Some dflt ->
  let schedule := selected_schedule (dict_get pricing_data region dflt) is_ia in
  let m := d * 30 in
  exists details,
    calculate_new_cloudwatch_cost file d region is_ia = Ok details
    /\ (m <= 10000 -> total_monthly_cost details == m * first_10tb schedule)
    /\ (10000 < m <= 30000 ->
        total_monthly_cost details
        == 10000 * first_10tb schedule + (m - 10000) * next_20tb schedule)
    /\ (30000 < m <= 50000 ->
        total_monthly_cost details
        == 10000 * first_10tb schedule + 20000 * next_20tb schedule
           + (m - 30000) * next_20tb_plus schedule)
    /\ (50000 < m ->
        total_monthly_cost details
        == 10000 * first_10tb schedule + 20000 * next_20tb schedule
           + 20000 * next_20tb_plus schedule + (m - 50000) * over_50tb schedule).
Proof.
  intros Hf Hd. cbv zeta.
  eexists. split; [by apply (calculate_new_Ok _ pricing_data dflt)|].
  apply total_monthly_cost_ranges.
Qed.

Lemma total_monthly_cost_closed_form_witness :
  exists details,
    calculate_new_cloudwatch_cost (Some sample_pricing) (4000 / 3) "us-east-1" false
      = Ok details
    /\ total_monthly_cost details == 11000.
Proof.
  destruct (total_monthly_cost_closed_form (Some sample_pricing) sample_pricing
              sample_region "us-east-1" false (4000 / 3) eq_refl eq_refl)
    as (details & Hcall & _ & _ & Hthird & _).
  exists details. split; [exact Hcall|].
  rewrite Hthird; [vm_compute; reflexivity | split; [reflexivity | discriminate]].
Defined.

(** X4.  The default region is looked up before the requested one: when
    the pricing document has no [us-east-1], both calculators raise
    [KeyError('us-east-1')] for every region, the regions the document
    lists included. *)
Theorem default_region_is_required pricing_data region :
  pricing_data !! "us-east-1" = None ->
  forall (standard_gb ia_gb daily_gb : Q) (is_ia : bool),
    calculate_old_cloudwatch_cost (Some pricing_data) standard_gb ia_gb region
    = Raise (KeyError "us-east-1")
    /\ calculate_new_cloudwatch_cost (Some pricing_data) daily_gb region is_ia
       = Raise (KeyError "us-east-1").
Proof.
  intros Hnone s i d is_ia.
  unfold calculate_old_cloudwatch_cost. rewrite calculate_new_cloudwatch_cost_eq.
  simpl. by rewrite (region_pricing_of_KeyError _ _ Hnone).
Qed.

Lemma default_region_is_required_witness :
  ({[ "eu-west-1" := sample_region ]} : gmap string RegionPricing) !! "eu-west-1"
    = Some sample_region
  /\ calculate_old_cloudwatch_cost (Some {[ "eu-west-1" := sample_region ]})
       1 1 "eu-west-1"
     = Raise (KeyError "us-east-1").
Proof.
  split; [reflexivity|].
  apply (default_region_is_required {[ "eu-west-1" := sample_region ]} "eu-west-1");
    [vm_compute; reflexivity | exact 1 | exact false].
Defined.

(** X5.  A region the pricing document lists is priced with its own
    rates, not with those of the default region. *)
Theorem listed_region_uses_own_rates file pricing_data dflt region region_pricing :
  file = Some pricing_data ->
  pricing_data !! "us-east-1" = Some dflt ->
  pricing_data !! region = Some region_pricing ->
  forall (standard_gb ia_gb daily_gb : Q) (is_ia : bool),
    calculate_old_cloudwatch_cost file standard_gb ia_gb region
    = Ok (standard_gb * standard_ingestion (logs region_pricing)
          + ia_gb * infrequent_ingestion (logs region_pricing))
    /\ calculate_new_cloudwatch_cost file daily_gb region is_ia
       = Ok (tier_breakdown (selected_schedule region_pricing is_ia) daily_gb).
Proof.
  intros Hf Hd Hr s i d is_ia.
  rewrite (calculate_old_Ok _ pricing_data dflt) by done.
  rewrite (calculate_new_Ok _ pricing_data dflt) by done.
  unfold dict_get. by rewrite Hr.
Qed.

Lemma listed_region_uses_own_rates_witness :
  calculate_old_cloudwatch_cost (Some sample_pricing_two) 100 0 "eu-west-1"
  = Ok (100 * standard_ingestion (logs sample_other_region)
        + 0 * infrequent_ingestion (logs sample_other_region)).
Proof.
  assert (sample_pricing_two !! "us-east-1" = Some sample_region) as Hd
    by (vm_compute; reflexivity).
  assert (sample_pricing_two !! "eu-west-1" = Some sample_other_region) as Hr
    by (vm_compute; reflexivity).
  destruct (listed_region_uses_own_rates (Some sample_pricing_two) sample_pricing_two
              sample_region "eu-west-1" sample_other_region eq_refl Hd Hr
              100 0 0 false) as [Hold _].
  exact Hold.
Defined.

(** X6.  No volume costs nothing: on zero usage the flat calculator
    returns a zero cost and the tiered calculator a breakdown whose four
    band costs and two totals are zero, whatever the rates. *)
Theorem zero_usage_costs_nothing file region is_ia :
  pricing_ok file ->
  exists cost details,
    calculate_old_cloudwatch_cost file 0 0 region = Ok cost
    /\ calculate_new_cloudwatch_cost file 0 region is_ia = Ok details
    /\ cost == 0
    /\ tier1_cost details == 0
    /\ tier2_cost details = 0
    /\ tier3_cost details = 0
    /\ tier4_cost details = 0
    /\ total_monthly_cost details == 0
    /\ total_daily_cost details == 0.
Proof.
  intros Hok. destruct (pricing_ok_inv _ Hok) as (pd & dflt & Hf & Hd).
  eexists _, _.
  split; [by apply (calculate_old_Ok _ pd dflt)|].
  split; [by apply (calculate_new_Ok _ pd dflt)|].
  simpl. repeat split; reflexivity.
Qed.

Lemma zero_usage_costs_nothing_witness :
  exists cost details,
    calculate_old_cloudwatch_cost (Some sample_pricing) 0 0 "ap-south-1" = Ok cost
    /\ calculate_new_cloudwatch_cost (Some sample_pricing) 0 "ap-south-1" true
       = Ok details
    /\ cost == 0
    /\ total_monthly_cost details == 0.
Proof.
  destruct (zero_usage_costs_nothing (Some sample_pricing) "ap-south-1" true
              pricing_ok_sample)
    as (cost & details & Hold & Hnew & Hcost & _ & _ & _ & _ & Hmonth & _).
  by exists cost, details.
Defined.

(** * Further properties of the aggregation engine *)

(** ** Sums *)

Lemma fold_left_Qplus_acc (l : list Q) (a : Q) :
  fold_left Qplus l a == a + sum l.
Proof.
  unfold sum. revert a. induction l as [|x l IH]; intros a; simpl.
  - ring.
  - rewrite (IH (a + x)), (IH (0 + x)). ring.
Qed.

Lemma sum_cons (x : Q) (l : list Q) : sum (x :: l) == x + sum l.
Proof. unfold sum at 1. simpl. rewrite fold_left_Qplus_acc. ring. Qed.

(** ** The rows as a function of the items *)

Lemma mapM_fmap_Ok {A B} (f : A -> result B) (g : A -> B) (l : list A) :
  (forall x, f x = Ok (g x)) -> mapM f l = Ok (g <$> l).
Proof.
  intros Hf. induction l as [|x l IH]; simpl; [done|].
  by rewrite Hf, IH.
Qed.

Lemma daily_comparison_Ok file pricing_data dflt region (item : string * DayUsage) :
  file = Some pricing_data ->
  pricing_data !! "us-east-1" = Some dflt ->
  daily_comparison file region item
  = Ok (daily_row (dict_get pricing_data region dflt) item).
Proof.
  intros Hf Hd. destruct item as [date data]. unfold daily_comparison.
  rewrite (calculate_old_Ok _ pricing_data dflt) by done.
  rewrite !(calculate_new_Ok _ pricing_data dflt) by done.
  reflexivity.
Qed.

Lemma analyze_costs_rows file pricing_data dflt usage region :
  file = Some pricing_data ->
  pricing_data !! "us-east-1" = Some dflt ->
  exists analysis,
    analyze_costs file usage region = Ok analysis
    /\ daily_comparisons analysis
       = daily_row (dict_get pricing_data region dflt) <$> sorted usage
    /\ total_standard_gb analysis = sum (standard <$> usage.*2)
    /\ total_ia_gb analysis = sum (ia <$> usage.*2)
    /\ total_gb analysis = sum (standard <$> usage.*2) + sum (ia <$> usage.*2)
    /\ total_old_cost analysis
       = sum (standard <$> usage.*2)
           * standard_ingestion (logs (dict_get pricing_data region dflt))
         + sum (ia <$> usage.*2)
             * infrequent_ingestion (logs (dict_get pricing_data region dflt))
    /\ total_new_cost analysis
       = total_monthly_cost
           (tier_breakdown (selected_schedule (dict_get pricing_data region dflt) false)
              (sum (standard <$> usage.*2) / 30))
         + total_monthly_cost
             (tier_breakdown (selected_schedule (dict_get pricing_data region dflt) true)
                (sum (ia <$> usage.*2) / 30)).
Proof.
  intros Hf Hd.
  destruct (analyze_costs_Ok file pricing_data dflt usage region Hf Hd)
    as (rows & Hrows & Hcall).
  rewrite (mapM_fmap_Ok _ (daily_row (dict_get pricing_data region dflt))) in Hrows
    by (intros item; by apply daily_comparison_Ok).
  injection Hrows as <-.
  eexists. split; [exact Hcall|]. simpl. done.
Qed.

Lemma sorted_item_le (items : list (string * DayUsage)) :
  StronglySorted item_le (sorted items).
Proof. apply (@StronglySorted_merge_sort _ item_le _ item_le_trans item_le_total). Qed.

(** X8.  The daily rows do not depend on the order in which the days
    were inserted into [daily_usage]: two dicts with the same items give
    the same list of daily rows. *)
Theorem daily_rows_ignore_insertion_order file usage usage' region :
  pricing_ok file ->
  dict_items_wf usage ->
  usage ≡ₚ usage' ->
  exists analysis analysis',
    analyze_costs file usage region = Ok analysis
    /\ analyze_costs file usage' region = Ok analysis'
    /\ daily_comparisons analysis = daily_comparisons analysis'.
Proof.
  intros Hok Hwf Hperm. destruct (pricing_ok_inv _ Hok) as (pd & dflt & Hf & Hd).
  destruct (analyze_costs_rows file pd dflt usage region Hf Hd)
    as (a & Hcall & Hrows & _).
  destruct (analyze_costs_rows file pd dflt usage' region Hf Hd)
    as (a' & Hcall' & Hrows' & _).
  exists a, a'. split; [exact Hcall|]. split; [exact Hcall'|].
  rewrite Hrows, Hrows'. f_equal. symmetry.
  apply sorted_unique; [exact Hwf | | apply sorted_item_le].
  by rewrite sorted_Permutation.
Qed.

Lemma daily_rows_ignore_insertion_order_witness :
  exists analysis analysis',
    analyze_costs (Some sample_pricing) sample_usage "us-east-1" = Ok analysis
    /\ analyze_costs (Some sample_pricing) (reverse sample_usage) "us-east-1"
       = Ok analysis'
    /\ daily_comparisons analysis = daily_comparisons analysis'.
Proof.
  apply (daily_rows_ignore_insertion_order (Some sample_pricing) sample_usage
           (reverse sample_usage) "us-east-1" pricing_ok_sample
           dict_items_wf_sample).
  vm_compute. apply perm_swap.
Defined.

(** X9.  Without a usable pricing file [analyze_costs] raises before it
    produces anything, on an empty usage as on any other: the load error
    when the file does not load, and [KeyError('us-east-1')] when the
    document lacks the default region, whatever region is asked for. *)
Theorem analyze_costs_raises_without_pricing usage region :
  analyze_costs None usage region = Raise LoadError
  /\ (forall pricing_data,
        pricing_data !! "us-east-1" = None ->
        analyze_costs (Some pricing_data) usage region
        = Raise (KeyError "us-east-1")).
Proof.
  split; [reflexivity|]. intros pd Hd.
  unfold analyze_costs, calculate_old_cloudwatch_cost. simpl.
  by rewrite (region_pricing_of_KeyError _ _ Hd).
Qed.

Lemma analyze_costs_raises_without_pricing_witness :
  analyze_costs (Some {[ "eu-west-1" := sample_region ]}) sample_usage "eu-west-1"
  = Raise (KeyError "us-east-1")
  /\ analyze_costs (Some {[ "eu-west-1" := sample_region ]}) [] "eu-west-1"
     = Raise (KeyError "us-east-1").
Proof.
  split.
  - destruct (analyze_costs_raises_without_pricing sample_usage "eu-west-1")
      as [_ Hkey].
    apply Hkey. vm_compute. reflexivity.
  - destruct (analyze_costs_raises_without_pricing [] "eu-west-1") as [_ Hkey].
    apply Hkey. vm_compute. reflexivity.
Defined.

(** X10.  Every day of the input has its row, and only one: the row of
    date [date] carries the volumes of [daily_usage[date]], its
    [old_cost] is the flat cost of these volumes, and [difference] is
    [new_cost - old_cost]. *)
Theorem rows_reflect_usage file usage region date data :
  pricing_ok file ->
  dict_items_wf usage ->
  (date, data) ∈ usage ->
  exists analysis row,
    analyze_costs file usage region = Ok analysis
    /\ row ∈ daily_comparisons analysis
    /\ DailyComparison.date row = date
    /\ DailyComparison.standard_gb row = standard data
    /\ DailyComparison.ia_gb row = ia data
    /\ DailyComparison.total_gb row = standard data + ia data
    /\ calculate_old_cloudwatch_cost file (standard data) (ia data) region
       = Ok (DailyComparison.old_cost row)
    /\ DailyComparison.difference row
       = DailyComparison.new_cost row - DailyComparison.old_cost row
    /\ (forall row', row' ∈ daily_comparisons analysis ->
          DailyComparison.date row' = date -> row' = row).
Proof.
  intros Hok Hwf Hin. destruct (pricing_ok_inv _ Hok) as (pd & dflt & Hf & Hd).
  destruct (analyze_costs_rows file pd dflt usage region Hf Hd)
    as (a & Hcall & Hrows & _).
  exists a, (daily_row (dict_get pd region dflt) (date, data)).
  split; [exact Hcall|]. rewrite Hrows.
  split.
  { apply list_elem_of_fmap. exists (date, data). split; [done|].
    by rewrite sorted_Permutation. }
  simpl. repeat split; try done.
  - by rewrite (calculate_old_Ok _ pd dflt).
  - intros row' Hrow' Hdate.
    apply list_elem_of_fmap in Hrow' as ([date' data'] & -> & Hitem).
    simpl in Hdate. subst date'.
    rewrite sorted_Permutation in Hitem.
    by rewrite (dict_items_functional usage date data' data Hwf Hitem Hin).
Qed.

Lemma rows_reflect_usage_witness :
  exists analysis row,
    analyze_costs (Some sample_pricing) sample_usage "us-east-1" = Ok analysis
    /\ row ∈ daily_comparisons analysis
    /\ DailyComparison.date row = "2025-05-01"
    /\ DailyComparison.standard_gb row = 480.
Proof.
  destruct (rows_reflect_usage (Some sample_pricing) sample_usage "us-east-1"
              "2025-05-01" {| standard := 480; ia := 0 |}
              pricing_ok_sample dict_items_wf_sample)
    as (analysis & row & Hcall & Hin & Hdate & Hstd & _).
  - apply list_elem_of_In. simpl. right. left. reflexivity.
  - by exists analysis, row.
Defined.

(** * The command line *)

Lemma get_region_cons (arg next : string) (rest : list string) :
  get_region (arg :: next :: rest)
  = if decide (arg = "--region") then next else get_region (next :: rest).
Proof. reflexivity. Qed.

Lemma get_region_found (pre post : list string) (r : string) :
  "--region" ∉ pre ->
  get_region (pre ++ "--region" :: r :: post) = r.
Proof.
  induction pre as [|arg pre IH]; intros Hpre.
  - reflexivity.
  - apply not_elem_of_cons in Hpre as [Hne Hpre].
    assert (exists next rest, pre ++ "--region" :: r :: post = next :: rest)
      as (next & rest & E) by (destruct pre; simpl; eauto).
    simpl app. rewrite E, get_region_cons, <- E.
    destruct (decide (arg = "--region")) as [->|_]; [done|]. by apply IH.
Qed.

Lemma get_region_none (argv : list string) :
  "--region" ∉ removelast argv -> get_region argv = EmptyString.
Proof.
  induction argv as [|arg argv IH]; intros Hno; [reflexivity|].
  destruct argv as [|next rest]; [reflexivity|].
  rewrite get_region_cons.
  change (removelast (arg :: next :: rest))
    with (arg :: removelast (next :: rest)) in Hno.
  apply not_elem_of_cons in Hno as [Hne Hno].
  destruct (decide (arg = "--region")) as [->|_]; [done|]. by apply IH.
Qed.

(** X12.  [get_region] returns the argument that follows the first
    [--region] on the command line, later flags being ignored; it returns
    the empty string when there is no [--region], or only one in the last
    position with nothing after it. *)
Theorem get_region_first_flag_decides (argv : list string) :
  (forall pre r post,
     argv = pre ++ "--region" :: r :: post -> "--region" ∉ pre ->
     get_region argv = r)
  /\ ("--region" ∉ removelast argv -> get_region argv = EmptyString).
Proof.
  split.
  - intros pre r post -> Hpre. by apply get_region_found.
  - apply get_region_none.
Qed.

Lemma get_region_first_flag_decides_witness :
  get_region ["estimator.py"; "--verbose"; "--region"; "eu-west-1"; "--region"; "us-west-2"]
  = "eu-west-1"
  /\ get_region ["estimator.py"; "--region"] = EmptyString.
Proof.
  split.
  - destruct (get_region_first_flag_decides
                ["estimator.py"; "--verbose"; "--region"; "eu-west-1";
                 "--region"; "us-west-2"]) as [Hfound _].
    apply (Hfound ["estimator.py"; "--verbose"] "eu-west-1" ["--region"; "us-west-2"]);
      [reflexivity|].
    apply (bool_decide_unpack _). vm_compute. exact I.
  - destruct (get_region_first_flag_decides ["estimator.py"; "--region"])
      as [_ Hnone].
    apply Hnone. apply (bool_decide_unpack _). vm_compute. exact I.
Defined.

(** X13.  The region of the analysis: a non-empty argument after the
    first [--region] overrides the region of the AWS client; without the
    flag, with the flag in the last position, or with an empty argument
    after it, the region of the client is used. *)
Theorem command_line_region_takes_precedence (argv : list string)
    (client_region : string) :
  (forall pre r post,
     argv = pre ++ "--region" :: r :: post -> "--region" ∉ pre ->
     r <> EmptyString ->
     select_region (get_region argv) client_region = r)
  /\ (forall pre post,
        argv = pre ++ "--region" :: EmptyString :: post -> "--region" ∉ pre ->
        select_region (get_region argv) client_region = client_region)
  /\ ("--region" ∉ removelast argv ->
      select_region (get_region argv) client_region = client_region).
Proof.
  unfold select_region. repeat split.
  - intros pre r post -> Hpre Hr. rewrite get_region_found by done.
    by destruct (decide (r <> EmptyString)).
  - intros pre post -> Hpre. rewrite get_region_found by done.
    by destruct (decide (EmptyString <> EmptyString)).
  - intros Hno. rewrite get_region_none by done.
    by destruct (decide (EmptyString <> EmptyString)).
Qed.

Lemma command_line_region_takes_precedence_witness :
  select_region (get_region ["estimator.py"; "--region"; "eu-west-1"]) "us-east-1"
  = "eu-west-1"
  /\ select_region (get_region ["estimator.py"]) "us-east-1" = "us-east-1".
Proof.
  split.
  - destruct (command_line_region_takes_precedence
                ["estimator.py"; "--region"; "eu-west-1"] "us-east-1")
      as [Hflag _].
    apply (Hflag ["estimator.py"] "eu-west-1" []); [reflexivity | | discriminate].
    apply (bool_decide_unpack _). vm_compute. exact I.
  - destruct (command_line_region_takes_precedence ["estimator.py"] "us-east-1")
      as (_ & _ & Hnone).
    apply Hnone. apply (bool_decide_unpack _). vm_compute. exact I.
Defined.

(** * Retrieving the usage *)

Lemma sum_app (l1 l2 : list Q) : sum (l1 ++ l2) == sum l1 + sum l2.
Proof.
  induction l1 as [|x l1 IH]; simpl.
  - unfold sum at 2. simpl. ring.
  - rewrite !sum_cons, IH. ring.
Qed.

(** ** Updating an item *)

Lemma dict_update_keys (d : list (string * DayUsage)) key f :
  (dict_update d key f).*1 = d.*1.
Proof.
  induction d as [|[k v] d IH]; [done|]. simpl.
  destruct (decide (k = key)); csimpl; [done | by rewrite IH].
Qed.

Lemma dict_update_sum (g : DayUsage -> Q) f (delta : Q)
    (d : list (string * DayUsage)) key :
  key ∈ d.*1 ->
  (forall v, g (f v) == g v + delta) ->
  sum (g <$> (dict_update d key f).*2) == sum (g <$> d.*2) + delta.
Proof.
  intros Hin Hg. induction d as [|[k v] d IH]; [by apply elem_of_nil in Hin|].
  simpl. destruct (decide (k = key)) as [->|Hne]; csimpl.
  - rewrite !sum_cons, Hg. ring.
  - rewrite !sum_cons, IH; [ring|].
    csimpl in Hin. apply elem_of_cons in Hin as [->|Hin]; [done | exact Hin].
Qed.

(** ** One datapoint *)

Lemma record_datapoint_keys class (d : list (string * DayUsage)) datapoint :
  (record_datapoint class d datapoint).*1
  = if bool_decide (Timestamp datapoint ∈ d.*1) then d.*1
    else d.*1 ++ [Timestamp datapoint].
Proof.
  unfold record_datapoint, dict_contains.
  destruct (decide (class = "INFREQUENT_ACCESS")); rewrite dict_update_keys;
    case_bool_decide; by rewrite ?fmap_app.
Qed.


Lemma record_datapoint_sums class (d : list (string * DayUsage)) datapoint :
  let gb := Sum datapoint / (1024 * 1024 * 1024) in
  sum (ia <$> (record_datapoint class d datapoint).*2)
  == sum (ia <$> d.*2) + (if decide (class = "INFREQUENT_ACCESS") then gb else 0)
  /\ sum (standard <$> (record_datapoint class d datapoint).*2)
     == sum (standard <$> d.*2)
        + (if decide (class = "INFREQUENT_ACCESS") then 0 else gb).
Proof.
  cbv zeta. unfold record_datapoint, dict_contains.
  set (date := Timestamp datapoint).
  set (gb := Sum datapoint / (1024 * 1024 * 1024)).
  set (d' := if bool_decide (date ∈ d.*1) then d
             else d ++ [(date, {| standard := 0; ia := 0 |})]).
  assert (date ∈ d'.*1) as Hin.
  { unfold d'. case_bool_decide; [done|].
    rewrite fmap_app. apply elem_of_app. right. by apply list_elem_of_singleton. }
  assert (sum (ia <$> d'.*2) == sum (ia <$> d.*2)
          /\ sum (standard <$> d'.*2) == sum (standard <$> d.*2)) as [Ei Es].
  { unfold d'. case_bool_decide; [by split|].
    rewrite !fmap_app, !sum_app. csimpl. rewrite !sum_cons.
    change (sum []) with 0. simpl ia. simpl standard. split; ring. }
  destruct (decide (class = "INFREQUENT_ACCESS")); split.
  - rewrite (dict_update_sum ia _ gb) by (done || (intros v; reflexivity)).
    by rewrite Ei.
  - rewrite (dict_update_sum standard _ 0) by (done || (intros v; simpl; ring)).
    by rewrite Es.
  - rewrite (dict_update_sum ia _ 0) by (done || (intros v; simpl; ring)).
    by rewrite Ei.
  - rewrite (dict_update_sum standard _ gb) by (done || (intros v; reflexivity)).
    by rewrite Es.
Qed.

(** ** The datapoints of a log group, and the log groups *)

Section Retrieval.

Variable metrics : string -> option (list Datapoint).




Lemma record_datapoints_sums class datapoints (d : list (string * DayUsage)) :
  let gb := sum ((fun dp => Sum dp / (1024 * 1024 * 1024)) <$> datapoints) in
  sum (ia <$> (fold_left (record_datapoint class) datapoints d).*2)
  == sum (ia <$> d.*2) + (if decide (class = "INFREQUENT_ACCESS") then gb else 0)
  /\ sum (standard <$> (fold_left (record_datapoint class) datapoints d).*2)
     == sum (standard <$> d.*2)
        + (if decide (class = "INFREQUENT_ACCESS") then 0 else gb).
Proof.
  cbv zeta. revert d. induction datapoints as [|dp dps IH]; intros d.
  - simpl. change (sum []) with 0.
    destruct (decide (class = "INFREQUENT_ACCESS")); split; ring.
  - simpl fold_left.
    destruct (IH (record_datapoint class d dp)) as [-> ->].
    destruct (record_datapoint_sums class d dp) as [-> ->].
    destruct (decide (class = "INFREQUENT_ACCESS"));
      split; rewrite ?fmap_cons, ?sum_cons; ring.
Qed.

Lemma add_log_group_sums (d : list (string * DayUsage)) log_group :
  sum (ia <$> (add_log_group metrics d log_group).*2)
  == sum (ia <$> d.*2)
     + (if decide (infrequent_access log_group) then reported_gb metrics log_group else 0)
  /\ sum (standard <$> (add_log_group metrics d log_group).*2)
     == sum (standard <$> d.*2)
        + (if decide (infrequent_access log_group) then 0 else reported_gb metrics log_group).
Proof.
  unfold add_log_group, reported_gb, infrequent_access.
  destruct (metrics _) as [dps|].
  - apply record_datapoints_sums.
  - destruct (decide _); split; ring.
Qed.

Lemma fold_add_log_group_sums log_groups (d : list (string * DayUsage)) :
  sum (ia <$> (fold_left (add_log_group metrics) log_groups d).*2)
  == sum (ia <$> d.*2)
     + sum (reported_gb metrics <$> filter infrequent_access log_groups)
  /\ sum (standard <$> (fold_left (add_log_group metrics) log_groups d).*2)
     == sum (standard <$> d.*2)
        + sum (reported_gb metrics <$> filter (fun g => ~ infrequent_access g) log_groups).
Proof.
  revert d. induction log_groups as [|g gs IH]; intros d.
  - simpl. change (sum []) with 0. split; ring.
  - simpl fold_left. destruct (IH (add_log_group metrics d g)) as [-> ->].
    destruct (add_log_group_sums d g) as [-> ->].
    rewrite !filter_cons.
    destruct (decide (infrequent_access g)) as [Hia|Hia].
    + rewrite decide_False by tauto. rewrite fmap_cons, sum_cons. split; ring.
    + rewrite decide_True by tauto. rewrite fmap_cons, sum_cons. split; ring.
Qed.

(** X15.  A log group whose metrics call raises is left out and the
    others are still counted: the usage is the one collected without that
    log group. *)
Theorem failing_log_group_is_skipped (before after : list LogGroup.t) log_group :
  metrics (LogGroup.name log_group) = None ->
  collect_daily_usage metrics (before ++ log_group :: after)
  = collect_daily_usage metrics (before ++ after).
Proof.
  intros Hfail. unfold collect_daily_usage.
  rewrite !fold_left_app. simpl. unfold add_log_group at 2. by rewrite Hfail.
Qed.

(** X16.  No volume is lost or invented: the ['ia'] volumes of the usage
    add up to what the datapoints of the [INFREQUENT_ACCESS] log groups
    report, in GB of 1024^3 bytes, and the ['standard'] volumes to what
    the datapoints of all the other log groups report. *)
Theorem collected_usage_conserves_volume (log_groups : list LogGroup.t) :
  sum (ia <$> (collect_daily_usage metrics log_groups).*2)
  == sum (reported_gb metrics <$> filter infrequent_access log_groups)
  /\ sum (standard <$> (collect_daily_usage metrics log_groups).*2)
     == sum (reported_gb metrics <$> filter (fun g => ~ infrequent_access g) log_groups).
Proof.
  destruct (fold_add_log_group_sums log_groups []) as [Hi Hs].
  unfold collect_daily_usage. rewrite Hi, Hs.
  change (sum (ia <$> [].*2)) with 0. change (sum (standard <$> [].*2)) with 0.
  split; ring.
Qed.

Lemma record_datapoint_elem class (d : list (string * DayUsage)) datapoint date :
  date ∈ (record_datapoint class d datapoint).*1
  <-> date ∈ d.*1 \/ Timestamp datapoint = date.
Proof.
  rewrite record_datapoint_keys. case_bool_decide as Hin.
  - split; [by left|]. intros [H|<-]; done.
  - rewrite elem_of_app, list_elem_of_singleton. split; intros [H|H]; auto.
Qed.

Lemma record_datapoints_elem class datapoints (d : list (string * DayUsage)) date :
  date ∈ (fold_left (record_datapoint class) datapoints d).*1
  <-> date ∈ d.*1 \/ exists dp, dp ∈ datapoints /\ Timestamp dp = date.
Proof.
  revert d. induction datapoints as [|dp dps IH]; intros d; simpl.
  - split; [by left|]. intros [H|(dp & Hdp & _)]; [done|].
    by apply elem_of_nil in Hdp.
  - rewrite IH, record_datapoint_elem. split.
    + intros [[H|H]|(dp' & Hdp' & H)]; [by left| |].
      * right. exists dp. split; [left | done].
      * right. exists dp'. split; [by right | done].
    + intros [H|(dp' & Hdp' & H)]; [by left; left|].
      apply elem_of_cons in Hdp' as [->|Hdp']; [by left; right|].
      right. by exists dp'.
Qed.

Lemma fold_add_log_group_elem log_groups (d : list (string * DayUsage)) date :
  date ∈ (fold_left (add_log_group metrics) log_groups d).*1
  <-> date ∈ d.*1
      \/ exists log_group datapoints dp,
           log_group ∈ log_groups
           /\ metrics (LogGroup.name log_group) = Some datapoints
           /\ dp ∈ datapoints /\ Timestamp dp = date.
Proof.
  revert d. induction log_groups as [|g gs IH]; intros d; simpl.
  - split; [by left|]. intros [H|(g & dps & dp & Hg & _)]; [done|].
    by apply elem_of_nil in Hg.
  - rewrite IH. unfold add_log_group. split.
    + intros [H|(g' & dps & dp & Hg' & Hm & Hdp & Hdate)].
      * destruct (metrics (LogGroup.name g)) as [dps|] eqn:Hm; [|by left].
        apply record_datapoints_elem in H as [H|(dp & Hdp & Hdate)]; [by left|].
        right. exists g, dps, dp. split; [left | done].
      * right. exists g', dps, dp. split; [by right | done].
    + intros [H|(g' & dps & dp & Hg' & Hm & Hdp & Hdate)].
      * left. destruct (metrics (LogGroup.name g)); [|done].
        apply record_datapoints_elem. by left.
      * apply elem_of_cons in Hg' as [->|Hg'].
        -- left. rewrite Hm. apply record_datapoints_elem. right. by exists dp.
        -- right. by exists g', dps, dp.
Qed.

(** X17.  The dates of the usage are exactly the dates for which some log
    group whose call succeeded has a datapoint: no day is lost, and no day
    without a datapoint is made up. *)
Theorem collected_usage_dates (log_groups : list LogGroup.t) (date : string) :
  date ∈ (collect_daily_usage metrics log_groups).*1
  <-> exists log_group datapoints dp,
        log_group ∈ log_groups
        /\ metrics (LogGroup.name log_group) = Some datapoints
        /\ dp ∈ datapoints /\ Timestamp dp = date.
Proof.
  unfold collect_daily_usage. rewrite fold_add_log_group_elem.
  split; [|by right]. intros [H|H]; [|done]. by apply elem_of_nil in H.
Qed.

Lemma dict_update_Forall (P : DayUsage -> Prop) f (d : list (string * DayUsage)) key :
  (forall v, P v -> P (f v)) ->
  Forall (fun item => P item.2) d ->
  Forall (fun item => P item.2) (dict_update d key f).
Proof.
  intros Hf. induction 1 as [|[k v] d Hv Hd IH]; [constructor|].
  simpl. destruct (decide (k = key)); constructor; simpl in *; auto.
Qed.

Lemma record_datapoint_nonneg class (d : list (string * DayUsage)) datapoint :
  0 <= Sum datapoint ->
  Forall (fun item => volumes_nonneg item.2) d ->
  Forall (fun item => volumes_nonneg item.2) (record_datapoint class d datapoint).
Proof.
  intros Hsum Hd. unfold record_datapoint.
  assert (0 <= Sum datapoint / (1024 * 1024 * 1024)) as Hgb.
  { apply Qle_shift_div_l; [reflexivity | lra]. }
  assert (Forall (fun item : string * DayUsage => volumes_nonneg item.2)
            (if dict_contains d (Timestamp datapoint) then d
             else d ++ [(Timestamp datapoint, {| standard := 0; ia := 0 |})])) as Hd'.
  { destruct (dict_contains _ _); [done|].
    apply Forall_app. split; [done|]. constructor; [|constructor].
    split; simpl; lra. }
  destruct (decide _); apply dict_update_Forall; try done;
    intros v [Hs Hi]; split; simpl; lra.
Qed.

End Retrieval.

Lemma failing_log_group_is_skipped_witness :
  collect_daily_usage sample_metrics
    ([ {| LogGroup.name := "/aws/lambda/orders"; LogGroup.class := "STANDARD" |} ]
     ++ {| LogGroup.name := "/aws/lambda/gone"; LogGroup.class := "STANDARD" |}
        :: [ {| LogGroup.name := "/aws/lambda/audit";
                LogGroup.class := "INFREQUENT_ACCESS" |} ])
  = collect_daily_usage sample_metrics
      ([ {| LogGroup.name := "/aws/lambda/orders"; LogGroup.class := "STANDARD" |} ]
       ++ [ {| LogGroup.name := "/aws/lambda/audit";
               LogGroup.class := "INFREQUENT_ACCESS" |} ]).
Proof.
  apply (failing_log_group_is_skipped sample_metrics). reflexivity.
Defined.

Lemma fold_record_datapoint_nonneg class datapoints (d : list (string * DayUsage)) :
  Forall (fun dp => 0 <= Sum dp) datapoints ->
  Forall (fun item => volumes_nonneg item.2) d ->
  Forall (fun item => volumes_nonneg item.2)
    (fold_left (record_datapoint class) datapoints d).
Proof.
  intros Hdps. revert d. induction Hdps as [|dp dps Hdp _ IH]; intros d Hd; [done|].
  simpl. by apply IH, record_datapoint_nonneg.
Qed.

(** X18.  When no datapoint reports a negative number of bytes, no day of
    the usage has a negative volume, in either storage class. *)
Theorem collected_usage_is_nonnegative metrics (log_groups : list LogGroup.t) :
  (forall log_group datapoints,
     log_group ∈ log_groups ->
     metrics (LogGroup.name log_group) = Some datapoints ->
     Forall (fun dp => 0 <= Sum dp) datapoints) ->
  Forall (fun item => volumes_nonneg item.2) (collect_daily_usage metrics log_groups).
Proof.
  unfold collect_daily_usage.
  assert (Forall (fun item : string * DayUsage => volumes_nonneg item.2) []) as Hnil
    by constructor.
  revert Hnil. generalize ([] : list (string * DayUsage)) as d.
  induction log_groups as [|g gs IH]; intros d Hd Hsums; [done|].
  simpl. apply IH.
  - unfold add_log_group. destruct (metrics (LogGroup.name g)) as [dps|] eqn:Hm; [|done].
    apply fold_record_datapoint_nonneg; [|done]. apply (Hsums g); [left | done].
  - intros g' dps Hg'. apply Hsums. by right.
Qed.

Lemma collected_usage_is_nonnegative_witness :
  Forall (fun item => volumes_nonneg item.2)
    (collect_daily_usage sample_metrics
       [ {| LogGroup.name := "/aws/lambda/orders"; LogGroup.class := "STANDARD" |} ]).
Proof.
  apply collected_usage_is_nonnegative.
  intros log_group datapoints Hin Hm.
  apply list_elem_of_singleton in Hin as ->. vm_compute in Hm.
  injection Hm as <-. repeat constructor; discriminate.
Defined.

(** ** The log groups *)

Lemma lambda_log_groups_prefix (entries : list LogGroupEntry) :
  Forall (fun g => String.prefix "/aws/lambda/" (LogGroup.name g) = true)
    (lambda_log_groups entries).
Proof.
  unfold lambda_log_groups. apply Forall_fmap, Forall_forall.
  intros entry Hin. by apply list_elem_of_filter in Hin as [Hp _].
Qed.

Lemma fetch_log_groups_prefix describe fuel next_token acc log_groups :
  fetch_log_groups describe fuel next_token acc = Done log_groups ->
  Forall (fun g => String.prefix "/aws/lambda/" (LogGroup.name g) = true) acc ->
  Forall (fun g => String.prefix "/aws/lambda/" (LogGroup.name g) = true) log_groups.
Proof.
  revert next_token acc. induction fuel as [|fuel IH]; intros token acc H Hacc;
    [discriminate|].
  simpl in H. destruct (describe token) as [response|]; [|discriminate].
  assert (Forall (fun g => String.prefix "/aws/lambda/" (LogGroup.name g) = true)
            (acc ++ lambda_log_groups (default [] (logGroups response)))) as Hacc'
    by (apply Forall_app; split; [done | apply lambda_log_groups_prefix]).
  destruct (nextToken response) as [next|]; [|by inversion H; subst].
  destruct (decide (next = EmptyString)); [by inversion H; subst|].
  by apply (IH (Some next) _ H).
Qed.

(** The fuel only bounds the number of pages: once the paging ends, more
    fuel gives the same log groups. *)
Lemma fetch_log_groups_fuel describe fuel extra next_token acc log_groups :
  fetch_log_groups describe fuel next_token acc = Done log_groups ->
  fetch_log_groups describe (fuel + extra) next_token acc = Done log_groups.
Proof.
  revert next_token acc. induction fuel as [|fuel IH]; intros token acc H;
    [discriminate|].
  simpl in *. destruct (describe token) as [response|]; [|discriminate].
  destruct (nextToken response) as [next|]; [|done].
  destruct (decide (next = EmptyString)); [done|]. by apply IH.
Qed.

(** X19.  Only Lambda's log groups are analysed: every log group the
    paging loop returns has a name that starts with [/aws/lambda/],
    whatever the pages hold. *)
Theorem only_lambda_log_groups describe fuel log_groups :
  fetch_log_groups describe fuel None [] = Done log_groups ->
  Forall (fun g => String.prefix "/aws/lambda/" (LogGroup.name g) = true) log_groups.
Proof. intros H. by apply (fetch_log_groups_prefix _ _ _ _ _ H). Qed.

Lemma only_lambda_log_groups_witness :
  exists log_groups,
    fetch_log_groups sample_describe 1 None [] = Done log_groups
    /\ length log_groups = 2%nat
    /\ Forall (fun g => String.prefix "/aws/lambda/" (LogGroup.name g) = true)
         log_groups.
Proof.
  eexists. split; [vm_compute; reflexivity|]. split; [reflexivity|].
  apply (only_lambda_log_groups sample_describe 1). vm_compute. reflexivity.
Defined.

(** * From the retrieval to the report *)



(** * The report *)


